(** * Verification of the inspection loop of [app-2.py]

    The development embeds the class [YOLODetectionSystem] of
    [src/app-2.py]: the statistics tracker ([update_statistics],
    [calculate_fps]), the classification of detections
    ([process_detections]), one iteration of the inspection loop
    ([generate_frames]) and the lifecycle controller ([start_detection],
    [stop_detection], [restart_detection]), the three command handlers and
    the script of the dashboard page served by [index].

    Python values are modelled as follows.
    - [int] is unbounded: [Z].
    - [float] is IEEE 754 binary64: [spec_float] of the Standard Library
      with [prec = 53] and [emax = 1024]; every operation rounds to nearest,
      ties to even, as CPython does.
    - [time.time()] is an input of the function that reads the clock.
    - an attribute that may be absent ([last_detection_time], read through
      [hasattr]) and a reference that may be [None] are [option]s.
    - the effects on the outside world (threads spawned, cameras released,
      events emitted, lines printed) are recorded in an explicit [World].
    - a method call and one iteration of the loop are taken as atomic steps;
      threads interleave between them. *)

From Stdlib Require Import ZArith List String Ascii Bool Lia SpecFloat.
Import ListNotations.

Local Open Scope Z_scope.

(** ** Python floats *)

Module Float64.

Definition prec : Z := 53.
Definition emax : Z := 1024.

Definition float : Type := spec_float.

(** [float(n)] for a Python int [n]: the nearest binary64. *)
Definition of_int (n : Z) : float := binary_normalize prec emax n 0 false.

Definition sub : float -> float -> float := SFsub prec emax.
Definition mul : float -> float -> float := SFmul prec emax.
Definition div : float -> float -> float := SFdiv prec emax.

(** [x > y] and [x >= y]; both are [False] when an operand is a NaN. *)
Definition gt (x y : float) : bool := SFltb y x.
Definition ge (x y : float) : bool := SFleb y x.
Definition le (x y : float) : bool := SFleb x y.

(** An integer as an exact, not yet rounded, significand. *)
Definition exact_int (n : Z) : float :=
  match n with
  | Z0 => S754_zero false
  | Zpos p => S754_finite false p 0
  | Zneg p => S754_finite true p 0
  end.

Definition is_infinite (x : float) : bool :=
  match x with S754_infinity _ => true | _ => false end.

(** Nearest integer to [m * 2^e], ties to even, for [m >= 0]. *)
Definition round_half_even (m e : Z) : Z :=
  match e with
  | Zneg p =>
      let d := Z.pow_pos 2 p in
      let q := m / d in
      let r := m mod d in
      match 2 * r ?= d with
      | Lt => q
      | Gt => q + 1
      | Eq => if Z.even q then q else q + 1
      end
  | _ => m * 2 ^ e
  end.

(** [round(x, 1)] on a float: CPython prints the exact value of [x] with
    one digit after the point, correctly rounded (ties to even), and reads
    the decimal string back as the nearest binary64.  Zeros, infinities
    and NaNs round to themselves. *)
Definition round1 (x : float) : float :=
  match x with
  | S754_finite s m e =>
      match round_half_even (Zpos m * 10) e with
      | Zpos n => div (S754_finite s n 0) (exact_int 10)
      | _ => S754_zero s
      end
  | _ => x
  end.

End Float64.

Import Float64.

(** ** Python exceptions and the result of a computation that may raise *)

Inductive PyExn : Type :=
| ZeroDivisionError
| OverflowError
| ModelError.

Inductive Result (A : Type) : Type :=
| Ok (a : A)
| Raise (e : PyExn).
Arguments Ok {A} a.
Arguments Raise {A} e.

Definition bind {A B : Type} (r : Result A) (k : A -> Result B) : Result B :=
  match r with
  | Ok a => k a
  | Raise e => Raise e
  end.

Notation "x <- r ;; k" := (bind r (fun x => k))
  (at level 61, r at next level, right associativity).

(** [a / b] on two Python ints: the correctly rounded quotient;
    [ZeroDivisionError] for [b = 0], [OverflowError] when the quotient
    is too large for a float. *)
Definition int_truediv (a b : Z) : Result float :=
  if b =? 0 then Raise ZeroDivisionError
  else
    let q := div (exact_int a) (exact_int b) in
    if is_infinite q then Raise OverflowError else Ok q.

(** ** Data model *)

(** The dictionary [detection_results['stats']]; its three keys are created
    in [__init__] and never added to or removed. *)
Record Stats : Type := mkStats {
  total : Z;
  pass : Z;
  ng : Z
}.

(** A colour as OpenCV takes it: (blue, green, red). *)
Definition Color : Type := (Z * Z * Z)%type.

Definition RED : Color := (0, 0, 255).
Definition YELLOW : Color := (0, 255, 255).
Definition GREEN : Color := (0, 255, 0).

(** What the drawing calls put on a frame.  Pixels are not modelled: a frame
    is the image the camera delivered and the overlays drawn on it since. *)
Inductive Overlay : Type :=
| BoxLabel (bbox : list float) (color : Color) (status : string) (confidence : float)
| Banner (fps : Z) (status_text : string) (color : Color).

Record Frame : Type := mkFrame {
  image : nat;
  overlays : list Overlay
}.

Definition raw_frame (img : nat) : Frame := mkFrame img [].

Definition draw (o : Overlay) (f : Frame) : Frame :=
  mkFrame (image f) (overlays f ++ [o]).

(** One element of [results[0].boxes]. *)
Record Box : Type := mkBox {
  xyxy : list float;
  conf : float;
  cls : nat
}.

(** One element of the list the model returns; [boxes] may be [None]. *)
Record Results : Type := mkResults {
  boxes : option (list Box)
}.

(** The dictionary [detection_info]. *)
Record DetectionInfo : Type := mkDetectionInfo {
  d_class : string;
  d_confidence : float;
  d_bbox : list float
}.

(** The dictionary [self.detection_results]. *)
Record DetectionResults : Type := mkDetectionResults {
  has_sg : bool;
  detections : list DetectionInfo;
  fps : Z;
  stats : Stats
}.

(** A [cv2.VideoCapture] object, by identity. *)
Definition Camera : Type := nat.

(** The attributes of a [YOLODetectionSystem] object.  The model is an
    external collaborator: its class names and its answers are arguments of
    the functions that use them.  [last_detection_time] is [None] until
    [update_statistics] creates the attribute. *)
Record YOLODetectionSystem : Type := mkSystem {
  camera : option Camera;
  is_running : bool;
  current_frame : option Frame;
  detection_results : DetectionResults;
  fps_counter : Z;
  fps_start_time : float;
  last_detection_time : option float
}.

(** [__init__], with the clock reading of line 29. *)
Definition init (now : float) : YOLODetectionSystem :=
  mkSystem None false None
           (mkDetectionResults false [] 0 (mkStats 0 0 0))
           0 now None.

Definition set_stats (st : Stats) (r : DetectionResults) : DetectionResults :=
  mkDetectionResults (has_sg r) (detections r) (fps r) st.

Definition set_fps (n : Z) (r : DetectionResults) : DetectionResults :=
  mkDetectionResults (has_sg r) (detections r) n (stats r).

Definition set_detected (b : bool) (ds : list DetectionInfo) (r : DetectionResults)
  : DetectionResults :=
  mkDetectionResults b ds (fps r) (stats r).

Definition with_camera (c : option Camera) (s : YOLODetectionSystem) :=
  mkSystem c (is_running s) (current_frame s) (detection_results s)
           (fps_counter s) (fps_start_time s) (last_detection_time s).

Definition with_is_running (b : bool) (s : YOLODetectionSystem) :=
  mkSystem (camera s) b (current_frame s) (detection_results s)
           (fps_counter s) (fps_start_time s) (last_detection_time s).

Definition with_current_frame (f : option Frame) (s : YOLODetectionSystem) :=
  mkSystem (camera s) (is_running s) f (detection_results s)
           (fps_counter s) (fps_start_time s) (last_detection_time s).

Definition with_detection_results (r : DetectionResults) (s : YOLODetectionSystem) :=
  mkSystem (camera s) (is_running s) (current_frame s) r
           (fps_counter s) (fps_start_time s) (last_detection_time s).

Definition with_fps_counter (n : Z) (s : YOLODetectionSystem) :=
  mkSystem (camera s) (is_running s) (current_frame s) (detection_results s)
           n (fps_start_time s) (last_detection_time s).

Definition with_fps_start_time (t : float) (s : YOLODetectionSystem) :=
  mkSystem (camera s) (is_running s) (current_frame s) (detection_results s)
           (fps_counter s) t (last_detection_time s).

Definition with_last_detection_time (t : option float) (s : YOLODetectionSystem) :=
  mkSystem (camera s) (is_running s) (current_frame s) (detection_results s)
           (fps_counter s) (fps_start_time s) t.

Definition counters (s : YOLODetectionSystem) : Stats := stats (detection_results s).

(** ** Statistics tracker *)

Definition DEBOUNCE : float := of_int 3.

(** Lines 89-90: the attribute is created with value [0] when absent. *)
Definition ensure_last_detection_time (s : YOLODetectionSystem) : YOLODetectionSystem :=
  match last_detection_time s with
  | Some _ => s
  | None => with_last_detection_time (Some (of_int 0)) s
  end.

Definition last_or_zero (s : YOLODetectionSystem) : float :=
  match last_detection_time s with
  | Some t => t
  | None => of_int 0
  end.

(** Lines 93-97 on the counters. *)
Definition commit_event (has_sg : bool) (st : Stats) : Stats :=
  let st1 := mkStats (total st + 1) (pass st) (ng st) in
  if has_sg then mkStats (total st1) (pass st1) (ng st1 + 1)
  else mkStats (total st1) (pass st1 + 1) (ng st1).

(** The guard of line 92, as [update_statistics] evaluates it. *)
Definition commits (s : YOLODetectionSystem) (current_time : float) : bool :=
  gt (sub current_time (last_or_zero s)) DEBOUNCE.

(** [update_statistics(self, has_sg)]; [current_time] is the clock reading
    of line 88. *)
Definition update_statistics (s : YOLODetectionSystem) (has_sg : bool)
           (current_time : float) : YOLODetectionSystem :=
  let s := ensure_last_detection_time s in
  if gt (sub current_time (last_or_zero s)) DEBOUNCE then
    let s := with_detection_results
               (set_stats (commit_event has_sg (counters s)) (detection_results s)) s in
    with_last_detection_time (Some current_time) s
  else s.

(** [calculate_fps(self)]; [current_time] is the clock reading of line 103. *)
Definition calculate_fps (s : YOLODetectionSystem) (current_time : float)
  : YOLODetectionSystem :=
  let s := with_fps_counter (fps_counter s + 1) s in
  if ge (sub current_time (fps_start_time s)) (of_int 1) then
    let s := with_detection_results (set_fps (fps_counter s) (detection_results s)) s in
    let s := with_fps_counter 0 s in
    with_fps_start_time current_time s
  else s.

(** The [ng_rate] expression of lines 147-148. *)
Definition ng_rate (st : Stats) : Result float :=
  q <- int_truediv (ng st) (Z.max 1 (total st)) ;;
  Ok (round1 (mul q (of_int 100))).

(** ** Class names

    Labels are byte strings.  [str.lower] and [str.upper] are modelled on
    the ASCII letters; no character outside ASCII lowers to an "s" or a "g",
    which is all the comparison of line 65 can see.  The upper-cased text
    of line 74 is the one the code draws for class names written in ASCII;
    statements about that text are made for such names only. *)

Definition lower_ascii (c : ascii) : ascii :=
  let n := nat_of_ascii c in
  if ((65 <=? n) && (n <=? 90))%nat then ascii_of_nat (n + 32) else c.

Definition upper_ascii (c : ascii) : ascii :=
  let n := nat_of_ascii c in
  if ((97 <=? n) && (n <=? 122))%nat then ascii_of_nat (n - 32) else c.

Fixpoint map_string (f : ascii -> ascii) (s : string) : string :=
  match s with
  | EmptyString => EmptyString
  | String c r => String (f c) (map_string f r)
  end.

Definition lower : string -> string := map_string lower_ascii.
Definition upper : string -> string := map_string upper_ascii.

Definition digit_char (d : nat) : ascii := ascii_of_nat (48 + d).

Fixpoint decimal_fuel (fuel n : nat) (acc : string) : string :=
  match fuel with
  | O => acc
  | S fuel' =>
      let acc' := String (digit_char (n mod 10)) acc in
      match (n / 10)%nat with
      | O => acc'
      | q => decimal_fuel fuel' q acc'
      end
  end.

(** [str(n)] for a non-negative int. *)
Definition decimal (n : nat) : string := decimal_fuel (S n) n EmptyString.

(** ** Classification of detections *)

Definition DEFECT_LABEL : string := "sg".

(** Line 56. *)
Definition class_name_of (names : list string) (class_id : nat) : string :=
  if (class_id <? List.length names)%nat then nth class_id names EmptyString
  else ("Class_" ++ decimal class_id)%string.

Definition is_defect (class_name : string) : bool :=
  String.eqb (lower class_name) DEFECT_LABEL.

(** The body of the [for] loop of lines 51-82 on the three variables it
    updates: [has_sg], [detections] and the frame drawn on in place.  The
    unpacking of line 68 and the drawing calls are taken to go through, as
    they do for the boxes a detector returns: four corners inside the
    image. *)
Definition process_box (names : list string)
           (acc : bool * list DetectionInfo * Frame) (box : Box)
  : bool * list DetectionInfo * Frame :=
  let '(has_sg, detections, frame) := acc in
  let class_name := class_name_of names (cls box) in
  let detection_info := mkDetectionInfo class_name (conf box) (xyxy box) in
  let detections := detections ++ [detection_info] in
  let has_sg := if is_defect class_name then true else has_sg in
  let '(color, status) :=
    if is_defect class_name then (RED, "SG - DEFECT"%string)
    else (YELLOW, upper class_name) in
  (has_sg, detections, draw (BoxLabel (xyxy box) color status (conf box)) frame).

(** [process_detections(self, results, frame)]; [names] is
    [self.model.names]. *)
Definition process_detections (names : list string) (results : list Results)
           (frame : Frame) : bool * list DetectionInfo * Frame :=
  match results with
  | r0 :: _ =>
      match boxes r0 with
      | Some bs => fold_left (process_box names) bs (false, [], frame)
      | None => (false, [], frame)
      end
  | [] => (false, [], frame)
  end.

(** ** The process around the object *)

(** Where a thread running [generate_frames] stands between two iterations. *)
Inductive LoopState : Type :=
| AtLoopHead
| Exited.

Inductive Event : Type :=
| detection_result (status : string) (pass_count ng_count total_count : Z)
                   (rate : float)
| video_frame (encoded : Frame).

Inductive Printed : Type :=
| ErrorInitializingCamera
| DetectionError (e : PyExn).

(** The object [detector], the threads started on its [generate_frames],
    the cameras released so far, the events pushed to the clients and the
    lines printed. *)
Record World : Type := mkWorld {
  self : YOLODetectionSystem;
  threads : list LoopState;
  released : list Camera;
  emitted : list Event;
  printed : list Printed
}.

Definition with_self (s : YOLODetectionSystem) (w : World) : World :=
  mkWorld s (threads w) (released w) (emitted w) (printed w).

Definition with_threads (ts : list LoopState) (w : World) : World :=
  mkWorld (self w) ts (released w) (emitted w) (printed w).

Definition spawn (w : World) : World := with_threads (threads w ++ [AtLoopHead]) w.

Definition release (c : Camera) (w : World) : World :=
  mkWorld (self w) (threads w) (released w ++ [c]) (emitted w) (printed w).

Definition emit (es : list Event) (w : World) : World :=
  mkWorld (self w) (threads w) (released w) (emitted w ++ es) (printed w).

Definition print (p : Printed) (w : World) : World :=
  mkWorld (self w) (threads w) (released w) (emitted w) (printed w ++ [p]).

Fixpoint set_nth {A : Type} (i : nat) (x : A) (l : list A) : list A :=
  match l, i with
  | [], _ => []
  | _ :: r, O => x :: r
  | y :: r, S j => y :: set_nth j x r
  end.

Definition exit_thread (i : nat) (w : World) : World :=
  with_threads (set_nth i Exited (threads w)) w.

(** The loops that are still running. *)
Definition active_loops (w : World) : nat :=
  List.length (filter (fun t => match t with AtLoopHead => true | Exited => false end)
                 (threads w)).

(** The process as the module starts it: line 180 builds [detector]. *)
Definition boot (now : float) : World := mkWorld (init now) [] [] [] [].

(** ** One iteration of the inspection loop *)

(** What the outside world answers during one iteration. *)
Record Inputs : Type := mkInputs {
  read : option nat;
  model : Result (list Results);
  clock_stats : float;
  clock_fps : float;
  imencode_ok : bool
}.

Definition status_of (has_sg : bool) : string :=
  if has_sg then "NG"%string else "PASS"%string.

Definition status_text_of (has_sg : bool) : string :=
  if has_sg then "NG - SG DETECTED"%string else "PASS - NO DEFECTS"%string.

(** The [try] block of lines 117-150.  It returns the world it leaves, the
    value of the variable [frame] (which [process_detections] and the banner
    draw on in place) and the exception that left the block, if any. *)
Definition try_block (names : list string) (inp : Inputs) (frame : Frame)
           (w : World) : World * Frame * option PyExn :=
  match model inp with
  | Raise e => (w, frame, Some e)
  | Ok results =>
      let '(has_sg, detections, frame) := process_detections names results frame in
      let s := self w in
      let s := with_detection_results
                 (set_detected has_sg detections (detection_results s)) s in
      let s := update_statistics s has_sg (clock_stats inp) in
      let s := calculate_fps s (clock_fps inp) in
      let status_color := if has_sg then RED else GREEN in
      let frame := draw (Banner (fps (detection_results s))
                                (status_text_of has_sg) status_color) frame in
      let s := with_current_frame (Some frame) s in
      let w := with_self s w in
      if imencode_ok inp then
        match ng_rate (counters s) with
        | Raise e => (w, frame, Some e)
        | Ok rate =>
            (emit [detection_result (status_of has_sg) (pass (counters s))
                                    (ng (counters s)) (total (counters s)) rate;
                   video_frame frame] w,
             frame, None)
        end
      else (w, frame, None)
  end.

(** Lines 152-154. *)
Definition except_block (e : PyExn) (frame : Frame) (w : World) : World :=
  let w := print (DetectionError e) w in
  with_self (with_current_frame (Some frame) (self w)) w.

(** Lines 116-156: the body of the [while] once a frame was read. *)
Definition loop_body (names : list string) (inp : Inputs) (img : nat) (w : World)
  : World :=
  let '(w, frame, raised) := try_block names inp (raw_frame img) w in
  match raised with
  | Some e => except_block e frame w
  | None => w
  end.

(** One turn of the [while] of [generate_frames] taken by thread [i]: the
    guard of line 111, the read of line 112 and the body.  A thread that
    leaves the loop is [Exited]; one that completes the body is back at the
    loop head. *)
Definition iterate (names : list string) (i : nat) (inp : Inputs) (w : World)
  : World :=
  match nth_error (threads w) i with
  | Some AtLoopHead =>
      match is_running (self w), camera (self w) with
      | true, Some _ =>
          match read inp with
          | Some img => loop_body names inp img w
          | None => exit_thread i w
          end
      | _, _ => exit_thread i w
      end
  | _ => w
  end.

(** ** Lifecycle controller *)

(** What [cv2.VideoCapture] and its [set] calls do in
    [initialize_camera]. *)
Inductive OpenOutcome : Type :=
| Opened (c : Camera)
| ConstructorRaises
| SetRaises (c : Camera).

Definition initialize_camera (o : OpenOutcome) (w : World) : World * bool :=
  match o with
  | Opened c => (with_self (with_camera (Some c) (self w)) w, true)
  | ConstructorRaises => (print ErrorInitializingCamera w, false)
  | SetRaises c =>
      (print ErrorInitializingCamera (with_self (with_camera (Some c) (self w)) w),
       false)
  end.

Definition start_detection (o : OpenOutcome) (w : World) : World * bool :=
  let '(w, ok) := initialize_camera o w in
  if ok then (spawn (with_self (with_is_running true (self w)) w), true)
  else (w, false).

Definition stop_detection (w : World) : World :=
  let w := with_self (with_is_running false (self w)) w in
  match camera (self w) with
  | Some c => with_self (with_camera None (self w)) (release c w)
  | None => w
  end.

Definition restart_detection (o : OpenOutcome) (w : World) : World * bool :=
  start_detection o (stop_detection w).

(** ** Runs *)

(** The operations of the system, each with what the outside world answers
    while it runs. *)
Inductive Op : Type :=
| UpdateStatistics (has_sg : bool) (now : float)
| CalculateFps (now : float)
| Start (o : OpenOutcome)
| Stop
| Restart (o : OpenOutcome)
| Iterate (i : nat) (inp : Inputs).

Definition exec (names : list string) (op : Op) (w : World) : World :=
  match op with
  | UpdateStatistics has_sg now => with_self (update_statistics (self w) has_sg now) w
  | CalculateFps now => with_self (calculate_fps (self w) now) w
  | Start o => fst (start_detection o w)
  | Stop => stop_detection w
  | Restart o => fst (restart_detection o w)
  | Iterate i inp => iterate names i inp w
  end.

Definition run (names : list string) (ops : list Op) (w : World) : World :=
  fold_left (fun w op => exec names op w) ops w.

Definition is_lifecycle (op : Op) : bool :=
  match op with
  | Start _ | Stop | Restart _ => true
  | _ => false
  end.


(** Runs of the statistics tracker alone: each call is [(has_sg, now)]. *)
Definition update_all (s : YOLODetectionSystem) (calls : list (bool * float))
  : YOLODetectionSystem :=
  fold_left (fun s c => update_statistics s (fst c) (snd c)) calls s.

Fixpoint count_commits (s : YOLODetectionSystem) (calls : list (bool * float)) : nat :=
  match calls with
  | [] => O
  | c :: rest =>
      ((if commits s (snd c) then 1 else 0)
       + count_commits (update_statistics s (fst c) (snd c)) rest)%nat
  end.

(** [now] is no more than 3.0 seconds after the event time [e], as the code
    measures it: [now - e <= 3.0]. *)
Definition in_window (e now : float) : bool := le (sub now e) DEBOUNCE.

Definition balanced (st : Stats) : Prop := total st = pass st + ng st.

(** ** Auxiliary definitions for the statements *)

(** The first call on a fresh object: no [last_detection_time] yet. *)
Definition first_call_commits (now : float) (has_sg : bool) : Prop :=
  forall s : YOLODetectionSystem,
    last_detection_time s = None ->
    counters (update_statistics s has_sg now) = commit_event has_sg (counters s).

(** The flag computed by [process_detections] on the frame just read. *)
Definition flag_of (names : list string) (results : list Results) (img : nat) : bool :=
  fst (fst (process_detections names results (raw_frame img))).

(** Some detection of the list carries the defect label. *)
Definition any_defect (ds : list DetectionInfo) : bool :=
  existsb (fun d => is_defect (d_class d)) ds.

(** The detection of the example: label "sg", confidence 0.9, box
    (0, 0, 10, 10), as the model reports it when "sg" is its class 0. *)
Definition sg_box : Box :=
  mkBox [of_int 0; of_int 0; of_int 10; of_int 10]
        (div (exact_int 9) (exact_int 10)) 0.

(** The events an iteration adds to those already pushed. *)
Definition pushed (names : list string) (inp : Inputs) (img : nat) (w : World)
  : list Event :=
  skipn (List.length (emitted w)) (emitted (loop_body names inp img w)).

(** A stopped system that has counted four parts, one of them defective. *)
Definition sample_world : World :=
  mkWorld (mkSystem None false None
                    (mkDetectionResults true [] 30 (mkStats 4 3 1))
                    7 (of_int 1700000000) (Some (of_int 1700000100)))
          [] [] [] [].

(** ** Command handlers *)

(** The dictionary a handler sends back with [emit('system_status', ...)];
    inside a handler [emit] answers the client that sent the command. *)
Inductive SystemStatus : Type :=
| system_status (running : bool) (message : option string).

Definition reported_running (r : SystemStatus) : bool :=
  match r with system_status b _ => b end.

(** Lines 354-359. *)
Definition handle_start_detection (o : OpenOutcome) (w : World)
  : World * SystemStatus :=
  let '(w, ok) := start_detection o w in
  if ok then (w, system_status true None)
  else (w, system_status false (Some "Failed to initialize camera"%string)).

(** Lines 361-364. *)
Definition handle_stop_detection (w : World) : World * SystemStatus :=
  (stop_detection w, system_status false None).

(** Lines 366-371. *)
Definition handle_restart_system (o : OpenOutcome) (w : World)
  : World * SystemStatus :=
  let '(w, ok) := restart_detection o w in
  if ok then (w, system_status true None)
  else (w, system_status false (Some "Failed to restart detection"%string)).

(** The three inbound commands, with what the camera answers. *)
Inductive Command : Type :=
| start_command (o : OpenOutcome)
| stop_command
| restart_command (o : OpenOutcome).

Definition handle (c : Command) (w : World) : World * SystemStatus :=
  match c with
  | start_command o => handle_start_detection o w
  | stop_command => handle_stop_detection w
  | restart_command o => handle_restart_system o w
  end.

(** ** The dashboard page

    The script of the page served by [index] (lines 280-349): what it keeps
    on screen and how each message changes it.  Texts are kept as the values
    they print. *)

Inductive BannerView : Type :=
| NoDetectionBanner
| PassBanner
| NgBanner.

Record Dashboard : Type := mkDashboard {
  start_disabled : bool;
  stop_disabled : bool;
  restart_disabled : bool;
  banner : BannerView;
  video_src : option Frame;
  pass_shown : Z;
  ng_shown : Z;
  total_shown : Z;
  rate_shown : float
}.

(** The page as the markup of lines 225-271 draws it. *)
Definition page0 : Dashboard :=
  mkDashboard false true true NoDetectionBanner None 0 0 0 (of_int 0).

(** [updateButtonStates(isRunning)], lines 293-297. *)
Definition updateButtonStates (isRunning : bool) (d : Dashboard) : Dashboard :=
  mkDashboard isRunning (negb isRunning) (negb isRunning)
              (banner d) (video_src d)
              (pass_shown d) (ng_shown d) (total_shown d) (rate_shown d).

(** [socket.on('system_status', ...)], lines 315-323. *)
Definition on_system_status (data : SystemStatus) (d : Dashboard) : Dashboard :=
  let d := updateButtonStates (reported_running data) d in
  if negb (reported_running data) then
    mkDashboard (start_disabled d) (stop_disabled d) (restart_disabled d)
                NoDetectionBanner None
                (pass_shown d) (ng_shown d) (total_shown d) (rate_shown d)
  else d.

(** [socket.on('video_frame', ...)] and [socket.on('detection_result', ...)],
    lines 325-348. *)
Definition on_event (e : Event) (d : Dashboard) : Dashboard :=
  match e with
  | video_frame f =>
      mkDashboard (start_disabled d) (stop_disabled d) (restart_disabled d)
                  (banner d) (Some f)
                  (pass_shown d) (ng_shown d) (total_shown d) (rate_shown d)
  | detection_result status p n t rate =>
      let b := if String.eqb status "PASS" then PassBanner
               else if String.eqb status "NG" then NgBanner
               else NoDetectionBanner in
      mkDashboard (start_disabled d) (stop_disabled d) (restart_disabled d)
                  b (video_src d) p n t rate
  end.

Inductive Message : Type :=
| Pushed (e : Event)
| Status (data : SystemStatus).

Definition receive (m : Message) (d : Dashboard) : Dashboard :=
  match m with
  | Pushed e => on_event e d
  | Status data => on_system_status data d
  end.

Definition receive_all (ms : list Message) (d : Dashboard) : Dashboard :=
  fold_left (fun d m => receive m d) ms d.

(** ** Further auxiliary definitions *)

(** A run of FPS ticks, each with its clock reading. *)
Definition tick_all (s : YOLODetectionSystem) (ticks : list float)
  : YOLODetectionSystem :=
  fold_left calculate_fps ticks s.

(** The guard of line 104. *)
Definition rolls (s : YOLODetectionSystem) (current_time : float) : bool :=
  ge (sub current_time (fps_start_time s)) (of_int 1).

(** The commits of a run of statistics updates that count a defect. *)
Fixpoint count_ng_commits (s : YOLODetectionSystem) (calls : list (bool * float))
  : nat :=
  match calls with
  | [] => O
  | c :: rest =>
      ((if commits s (snd c) && fst c then 1 else 0)
       + count_ng_commits (update_statistics s (fst c) (snd c)) rest)%nat
  end.

(** The boxes [process_detections] looks at: those of [results[0]]. *)
Definition first_boxes (results : list Results) : list Box :=
  match results with
  | r0 :: _ => match boxes r0 with Some bs => bs | None => [] end
  | [] => []
  end.

Definition info_of (names : list string) (b : Box) : DetectionInfo :=
  mkDetectionInfo (class_name_of names (cls b)) (conf b) (xyxy b).

Definition label_of (names : list string) (b : Box) : Overlay :=
  let class_name := class_name_of names (cls b) in
  if is_defect class_name
  then BoxLabel (xyxy b) RED "SG - DEFECT" (conf b)
  else BoxLabel (xyxy b) YELLOW (upper class_name) (conf b).

(** Each live loop takes one turn, in the order the threads were started;
    [inps] gives what the outside world answers to each. *)
Definition one_turn_each (names : list string) (inps : nat -> Inputs) (w : World)
  : World :=
  fold_left (fun w i => iterate names i (inps i) w)
            (seq 0 (List.length (threads w))) w.

(** The camera objects an operation creates. *)
Definition opened_by (op : Op) : list Camera :=
  match op with
  | Start (Opened c) | Start (SetRaises c)
  | Restart (Opened c) | Restart (SetRaises c) => [c]
  | _ => []
  end.

Definition spawns_loop (op : Op) : bool :=
  match op with
  | Start (Opened _) | Restart (Opened _) => true
  | _ => false
  end.

(** What a pushed status event must satisfy. *)
Definition event_ok (e : Event) : Prop :=
  match e with
  | detection_result status p n t _ =>
      (status = "PASS"%string \/ status = "NG"%string)
      /\ t = p + n /\ 0 <= p /\ 0 <= n
  | video_frame _ => True
  end.

(** The counters add up and none is negative. *)
Definition counters_in_range (w : World) : Prop :=
  let st := counters (self w) in
  total st = pass st + ng st /\ 0 <= pass st /\ 0 <= ng st.

(** What [process_detections] returns for the frame just read. *)
Definition found (names : list string) (results : list Results) (img : nat)
  : list DetectionInfo :=
  snd (fst (process_detections names results (raw_frame img))).

Definition boxed (names : list string) (results : list Results) (img : nat) : Frame :=
  snd (process_detections names results (raw_frame img)).

(** The object after lines 120-123 of an iteration whose model call
    returned [results]. *)
Definition tracked (names : list string) (results : list Results) (img : nat)
           (inp : Inputs) (s : YOLODetectionSystem) : YOLODetectionSystem :=
  let hs := flag_of names results img in
  let s := with_detection_results
             (set_detected hs (found names results img) (detection_results s)) s in
  calculate_fps (update_statistics s hs (clock_stats inp)) (clock_fps inp).

(** The frame after lines 125-131: the boxes, then the banner. *)
Definition annotated (names : list string) (results : list Results) (img : nat)
           (fps_now : Z) : Frame :=
  let hs := flag_of names results img in
  draw (Banner fps_now (status_text_of hs) (if hs then RED else GREEN))
       (boxed names results img).

(** The stored flag agrees with the stored list of detections. *)
Definition flag_matches (s : YOLODetectionSystem) : Prop :=
  has_sg (detection_results s) = any_defect (detections (detection_results s)).

Definition fps_in_range (s : YOLODetectionSystem) : Prop :=
  0 <= fps_counter s /\ 0 <= fps (detection_results s).

Definition is_live (t : LoopState) : bool :=
  match t with AtLoopHead => true | Exited => false end.

Definition live_count (ts : list LoopState) : nat := List.length (filter is_live ts).

Definition failed_start (c : Command) : bool :=
  match c with
  | start_command ConstructorRaises | start_command (SetRaises _) => true
  | _ => false
  end.


(** No camera has been released twice, the camera held has not been
    released, and the cameras of [fresh] have not been seen yet. *)
Definition cameras_ok (fresh : list Camera) (w : World) : Prop :=
  NoDup (released w)
  /\ (forall c, camera (self w) = Some c -> ~ In c (released w))
  /\ (forall c, In c fresh -> ~ In c (released w) /\ camera (self w) <> Some c).

(** Every character of the string is an ASCII character. *)
Fixpoint is_ascii (s : string) : bool :=
  match s with
  | EmptyString => true
  | String c r => (nat_of_ascii c <? 128)%nat && is_ascii r
  end.

(** A box as the detector returns it: four corners, none of them outside
    an image of [width] by [height] pixels.  For such a box the unpacking of
    line 68 and the drawing calls of lines 76-82 go through. *)
Definition in_image (width height : Z) (b : Box) : bool :=
  match xyxy b with
  | [x1; y1; x2; y2] =>
      le (of_int 0) x1 && le x1 (of_int width)
      && le (of_int 0) x2 && le x2 (of_int width)
      && le (of_int 0) y1 && le y1 (of_int height)
      && le (of_int 0) y2 && le y2 (of_int height)
  | _ => false
  end.

(** * Properties *)

Ltac same_camera := first [reflexivity | assumption | symmetry; assumption].

(** ** Floats *)

Lemma of_int_0 : of_int 0 = S754_zero false.
Proof. reflexivity. Qed.

Lemma sub_zero_r (x : float) : sub x (S754_zero false) = x.
Proof. destruct x as [[]|[]| |[] m e]; reflexivity. Qed.

Lemma SFcompare_antisym (x y : float) :
  SFcompare y x = option_map CompOpp (SFcompare x y).
Proof.
  destruct x as [[]|[]| |[] m1 e1], y as [[]|[]| |[] m2 e2]; simpl; try reflexivity.
  all: rewrite (Z.compare_antisym e1 e2);
    destruct (e1 ?= e2) eqn:He; simpl; try reflexivity;
    change (Pos.compare_cont Eq m2 m1) with (m2 ?= m1)%positive;
    change (Pos.compare_cont Eq m1 m2) with (m1 ?= m2)%positive;
    rewrite (Pos.compare_antisym m1 m2);
    destruct (m1 ?= m2)%positive; reflexivity.
Qed.

Lemma le_not_gt (x y : float) : le x y = true -> gt x y = false.
Proof.
  unfold le, gt, SFleb, SFltb. rewrite (SFcompare_antisym x y).
  destruct (SFcompare x y) as [[]|]; simpl; congruence.
Qed.

(** ** The statistics tracker *)

Lemma last_or_zero_ensure (s : YOLODetectionSystem) :
  last_or_zero (ensure_last_detection_time s) = last_or_zero s.
Proof.
  destruct s as [cam run cf dr fc fs [l|]]; reflexivity.
Qed.

Lemma update_statistics_commit (s : YOLODetectionSystem) (hs : bool) (now : float) :
  commits s now = true ->
  update_statistics s hs now
  = with_last_detection_time (Some now)
      (with_detection_results
         (set_stats (commit_event hs (counters s)) (detection_results s))
         (ensure_last_detection_time s)).
Proof.
  unfold commits, update_statistics. rewrite last_or_zero_ensure. intros ->.
  destruct s as [cam run cf dr fc fs [l|]]; reflexivity.
Qed.

Lemma update_statistics_skip (s : YOLODetectionSystem) (hs : bool) (now : float) :
  commits s now = false ->
  update_statistics s hs now = ensure_last_detection_time s.
Proof.
  unfold commits, update_statistics. rewrite last_or_zero_ensure. intros ->.
  reflexivity.
Qed.

Lemma ensure_present (s : YOLODetectionSystem) (e : float) :
  last_detection_time s = Some e -> ensure_last_detection_time s = s.
Proof. unfold ensure_last_detection_time. intros ->. reflexivity. Qed.

Lemma counters_ensure (s : YOLODetectionSystem) :
  counters (ensure_last_detection_time s) = counters s.
Proof.
  destruct s as [cam run cf dr fc fs [l|]]; reflexivity.
Qed.

(** What a call does to the counters, in terms of its guard. *)
Lemma counters_update_statistics (s : YOLODetectionSystem) (hs : bool) (now : float) :
  counters (update_statistics s hs now)
  = if commits s now then commit_event hs (counters s) else counters s.
Proof.
  destruct (commits s now) eqn:E.
  - rewrite update_statistics_commit by assumption. reflexivity.
  - rewrite update_statistics_skip by assumption. apply counters_ensure.
Qed.

Lemma last_after_commit (s : YOLODetectionSystem) (hs : bool) (now : float) :
  commits s now = true ->
  last_detection_time (update_statistics s hs now) = Some now.
Proof. intros H. rewrite update_statistics_commit by assumption. reflexivity. Qed.

(** A call inside the window of the recorded event time changes nothing. *)
Lemma update_in_window_noop (s : YOLODetectionSystem) (e : float) (hs : bool)
      (now : float) :
  last_detection_time s = Some e ->
  in_window e now = true ->
  commits s now = false /\ update_statistics s hs now = s.
Proof.
  intros Hl Hw.
  assert (Hc : commits s now = false).
  { unfold commits, last_or_zero. rewrite Hl. apply le_not_gt. exact Hw. }
  split; [exact Hc|].
  rewrite update_statistics_skip by exact Hc. apply (ensure_present s e Hl).
Qed.

Lemma update_all_in_window (calls : list (bool * float)) :
  forall (s : YOLODetectionSystem) (e : float),
    last_detection_time s = Some e ->
    Forall (fun c => in_window e (snd c) = true) calls ->
    update_all s calls = s /\ count_commits s calls = O.
Proof.
  induction calls as [|c rest IH]; intros s e Hl Hall.
  - split; reflexivity.
  - inversion Hall as [|? ? Hc Hrest]; subst.
    destruct (update_in_window_noop s e (fst c) (snd c) Hl Hc) as [Hno Hid].
    unfold update_all in *. simpl. rewrite Hid, Hno.
    apply (IH s e Hl Hrest).
Qed.

Lemma commit_event_total (hs : bool) (st : Stats) :
  total (commit_event hs st) = total st + 1.
Proof. destruct hs; reflexivity. Qed.

Lemma commit_event_balanced (hs : bool) (st : Stats) :
  balanced st -> balanced (commit_event hs st).
Proof. unfold balanced. destruct hs; simpl; lia. Qed.

(** C2: a call that commits at time [t0], followed by any number of calls
    whose timestamps lie within 3.0 seconds after [t0], makes exactly one
    commit in all: [total] grows by exactly one, and every call after the
    first leaves the whole object, hence [total], [pass], [ng] and
    [last_detection_time], as it found it. *)
Theorem debounce_window_commits_once
        (s : YOLODetectionSystem) (hs0 : bool) (t0 : float)
        (rest : list (bool * float)) :
  commits s t0 = true ->
  Forall (fun c => in_window t0 (snd c) = true) rest ->
  count_commits s ((hs0, t0) :: rest) = 1%nat
  /\ total (counters (update_all s ((hs0, t0) :: rest))) = total (counters s) + 1
  /\ last_detection_time (update_all s ((hs0, t0) :: rest)) = Some t0
  /\ forall pre c post,
      rest = pre ++ c :: post ->
      let before := update_all s ((hs0, t0) :: pre) in
      commits before (snd c) = false
      /\ update_statistics before (fst c) (snd c) = before.
Proof.
  intros Hc Hall.
  pose proof (last_after_commit s hs0 t0 Hc) as Hl.
  destruct (update_all_in_window rest _ t0 Hl Hall) as [Hid Hcnt].
  repeat split.
  - simpl. rewrite Hc, Hcnt. reflexivity.
  - unfold update_all in *. simpl. rewrite Hid.
    rewrite counters_update_statistics, Hc. apply commit_event_total.
  - unfold update_all in *. simpl. rewrite Hid. exact Hl.
  - subst rest. apply Forall_app in Hall. destruct Hall as [Hpre Hrest].
    inversion Hrest; subst.
    destruct (update_all_in_window pre _ t0 Hl Hpre) as [Hidp _].
    unfold update_all in *. simpl. rewrite Hidp.
    apply (update_in_window_noop _ t0 (fst c) (snd c) Hl). assumption.
  - subst rest. apply Forall_app in Hall. destruct Hall as [Hpre Hrest].
    inversion Hrest; subst.
    destruct (update_all_in_window pre _ t0 Hl Hpre) as [Hidp _].
    unfold update_all in *. simpl. rewrite Hidp.
    apply (update_in_window_noop _ t0 (fst c) (snd c) Hl). assumption.
Qed.

Lemma debounce_window_commits_once_witness :
  let s := init (of_int 1000) in
  let rest := [(true, of_int 101); (false, of_int 102); (true, of_int 103)] in
  commits s (of_int 100) = true
  /\ Forall (fun c => in_window (of_int 100) (snd c) = true) rest
  /\ count_commits s ((false, of_int 100) :: rest) = 1%nat
  /\ total (counters (update_all s ((false, of_int 100) :: rest))) = 1.
Proof.
  assert (Hc : commits (init (of_int 1000)) (of_int 100) = true)
    by (vm_compute; reflexivity).
  assert (Hw : Forall (fun c => in_window (of_int 100) (snd c) = true)
                      [(true, of_int 101); (false, of_int 102); (true, of_int 103)])
    by (repeat constructor).
  pose proof (debounce_window_commits_once (init (of_int 1000)) false (of_int 100)
                _ Hc Hw) as [H1 [H2 _]].
  repeat split; assumption.
Defined.

(** C4, as stated, fails: the attribute is created with value [0], the
    epoch, so a first call made when the clock reads 2.0 finds
    [2.0 - 0 > 3.0] false and counts nothing. *)
Lemma first_call_at_two_seconds_counts_nothing :
  let s := init (of_int 2) in
  last_detection_time s = None
  /\ counters (update_statistics s true (of_int 2)) = counters s
  /\ total (counters (update_statistics s true (of_int 2))) = 0
  /\ ~ first_call_commits (of_int 2) true.
Proof.
  repeat split.
  intros H. specialize (H (init (of_int 2)) eq_refl). vm_compute in H. discriminate.
Qed.

Lemma commits_fresh (s : YOLODetectionSystem) (now : float) :
  last_detection_time s = None -> commits s now = gt now DEBOUNCE.
Proof.
  intros H. unfold commits, last_or_zero. rewrite H, of_int_0, sub_zero_r.
  reflexivity.
Qed.

(** C4 (amended): the first call commits exactly when the clock reads more
    than 3.0 (seconds since the epoch): its guard is [now > 3.0].  For every
    such [now], [total] is incremented, [ng] is incremented when a defect is
    present and [pass] otherwise, and the event time becomes [now].  For
    every other [now] the first call counts nothing: the counters stay as
    they are and the event time is created as 0. *)
Theorem first_call_commits_after_three_seconds
        (s : YOLODetectionSystem) (has_sg : bool) (now : float) :
  last_detection_time s = None ->
  let s' := update_statistics s has_sg now in
  commits s now = gt now DEBOUNCE
  /\ (gt now DEBOUNCE = true ->
      total (counters s') = total (counters s) + 1
      /\ ng (counters s') = (if has_sg then ng (counters s) + 1 else ng (counters s))
      /\ pass (counters s')
         = (if has_sg then pass (counters s) else pass (counters s) + 1)
      /\ last_detection_time s' = Some now)
  /\ (gt now DEBOUNCE = false ->
      counters s' = counters s
      /\ last_detection_time s' = Some (of_int 0))
  /\ (counters s' = commit_event has_sg (counters s) <-> gt now DEBOUNCE = true).
Proof.
  intros Hl. cbv zeta.
  pose proof (commits_fresh s now Hl) as Hc.
  split; [exact Hc|].
  assert (Hyes : gt now DEBOUNCE = true ->
                 counters (update_statistics s has_sg now)
                 = commit_event has_sg (counters s)
                 /\ last_detection_time (update_statistics s has_sg now) = Some now).
  { intros Hg. rewrite Hg in Hc.
    rewrite last_after_commit, counters_update_statistics, Hc by assumption.
    split; reflexivity. }
  assert (Hno : gt now DEBOUNCE = false ->
                counters (update_statistics s has_sg now) = counters s
                /\ last_detection_time (update_statistics s has_sg now)
                   = Some (of_int 0)).
  { intros Hg. rewrite Hg in Hc.
    rewrite counters_update_statistics, Hc. split; [reflexivity|].
    rewrite update_statistics_skip by exact Hc.
    unfold ensure_last_detection_time. rewrite Hl. reflexivity. }
  split; [|split; [exact Hno|]].
  - intros Hg. destruct (Hyes Hg) as [-> ->].
    destruct has_sg; repeat split; reflexivity.
  - split.
    + intros Heq. destruct (gt now DEBOUNCE) eqn:Hg; [reflexivity|].
      destruct (Hno eq_refl) as [Hsame _]. rewrite Hsame in Heq.
      apply (f_equal total) in Heq. rewrite commit_event_total in Heq. lia.
    + intros Hg. apply (Hyes Hg).
Qed.

Lemma first_call_commits_after_three_seconds_witness :
  let s := init (of_int 1700000000) in
  let s' := update_statistics s true (of_int 1700000005) in
  let s2 := update_statistics s true (of_int 3) in
  (total (counters s') = 1 /\ ng (counters s') = 1 /\ pass (counters s') = 0
   /\ last_detection_time s' = Some (of_int 1700000005))
  /\ (counters s2 = counters s /\ last_detection_time s2 = Some (of_int 0)).
Proof.
  split.
  - exact (proj1 (proj2 (first_call_commits_after_three_seconds
                           (init (of_int 1700000000)) true (of_int 1700000005)
                           eq_refl))
                 eq_refl).
  - exact (proj1 (proj2 (proj2 (first_call_commits_after_three_seconds
                                  (init (of_int 1700000000)) true (of_int 3)
                                  eq_refl)))
                 eq_refl).
Defined.

(** ** What each operation does to the counters *)

Lemma counters_calculate_fps (s : YOLODetectionSystem) (now : float) :
  counters (calculate_fps s now) = counters s.
Proof.
  unfold calculate_fps.
  destruct (ge (sub now (fps_start_time (with_fps_counter (fps_counter s + 1) s)))
               (of_int 1)); reflexivity.
Qed.

Lemma counters_start_detection (o : OpenOutcome) (w : World) :
  counters (self (fst (start_detection o w))) = counters (self w).
Proof. destruct o; reflexivity. Qed.

Lemma counters_stop_detection (w : World) :
  counters (self (stop_detection w)) = counters (self w).
Proof.
  unfold stop_detection. simpl. destruct (camera (self w)); reflexivity.
Qed.

Lemma counters_restart_detection (o : OpenOutcome) (w : World) :
  counters (self (fst (restart_detection o w))) = counters (self w).
Proof.
  unfold restart_detection.
  rewrite counters_start_detection. apply counters_stop_detection.
Qed.

Lemma counters_with_current_frame (f : option Frame) (s : YOLODetectionSystem) :
  counters (with_current_frame f s) = counters s.
Proof. reflexivity. Qed.

Lemma counters_except_block (e : PyExn) (f : Frame) (w : World) :
  counters (self (except_block e f w)) = counters (self w).
Proof. reflexivity. Qed.

Lemma counters_loop_body (names : list string) (inp : Inputs) (img : nat) (w : World) :
  counters (self (loop_body names inp img w))
  = match model inp with
    | Ok results =>
        if commits (self w) (clock_stats inp)
        then commit_event (flag_of names results img) (counters (self w))
        else counters (self w)
    | Raise _ => counters (self w)
    end.
Proof.
  unfold loop_body, try_block, flag_of.
  destruct (model inp) as [results|e]; [|reflexivity].
  destruct (process_detections names results (raw_frame img)) as [[hs ds] f].
  cbv zeta.
  destruct (imencode_ok inp);
    [destruct (ng_rate _)|]; cbn [self with_self emit fst snd];
    rewrite ?counters_except_block; cbn [self with_self];
    rewrite counters_with_current_frame, counters_calculate_fps,
            counters_update_statistics; reflexivity.
Qed.

(** An iteration changes the counters only through the commit of its
    [update_statistics] call. *)
Lemma counters_iterate (names : list string) (i : nat) (inp : Inputs) (w : World) :
  counters (self (iterate names i inp w)) = counters (self w)
  \/ exists hs, commits (self w) (clock_stats inp) = true
             /\ counters (self (iterate names i inp w))
                = commit_event hs (counters (self w)).
Proof.
  unfold iterate.
  destruct (nth_error (threads w) i) as [[|]|]; try (left; reflexivity).
  destruct (is_running (self w)); [|left; reflexivity].
  destruct (camera (self w)); [|left; reflexivity].
  destruct (read inp) as [img|]; [|left; reflexivity].
  rewrite counters_loop_body.
  destruct (model inp) as [results|e]; [|left; reflexivity].
  destruct (commits (self w) (clock_stats inp)); [|left; reflexivity].
  right. exists (flag_of names results img). split; reflexivity.
Qed.

Lemma commit_event_shape (hs : bool) (st : Stats) :
  total (commit_event hs st) = total st + 1
  /\ ((pass (commit_event hs st) = pass st + 1 /\ ng (commit_event hs st) = ng st)
      \/ (pass (commit_event hs st) = pass st /\ ng (commit_event hs st) = ng st + 1)).
Proof. destruct hs; simpl; auto. Qed.

(** Every operation either leaves the counters alone or applies one
    [commit_event] to them, and the latter only through a call of
    [update_statistics] whose guard holds. *)
Lemma counters_exec (names : list string) (op : Op) (w : World) :
  counters (self (exec names op w)) = counters (self w)
  \/ exists hs now,
      commits (self w) now = true
      /\ counters (self (exec names op w)) = commit_event hs (counters (self w))
      /\ (op = UpdateStatistics hs now
          \/ exists i inp, op = Iterate i inp /\ clock_stats inp = now).
Proof.
  destruct op as [hs now|now|o| |o|i inp]; cbn [exec].
  - cbn [self with_self]. rewrite counters_update_statistics.
    destruct (commits (self w) now) eqn:E; [right|left; reflexivity].
    exists hs, now. auto.
  - left. apply counters_calculate_fps.
  - left. apply counters_start_detection.
  - left. apply counters_stop_detection.
  - left. apply counters_restart_detection.
  - destruct (counters_iterate names i inp w) as [H|[hs [Hc H]]]; [left; exact H|].
    right. exists hs, (clock_stats inp). repeat split; eauto.
Qed.

Lemma exec_balanced (names : list string) (op : Op) (w : World) :
  balanced (counters (self w)) -> balanced (counters (self (exec names op w))).
Proof.
  intros Hb. destruct (counters_exec names op w) as [->|[hs [now [_ [-> _]]]]].
  - exact Hb.
  - apply commit_event_balanced. exact Hb.
Qed.

Lemma run_balanced (names : list string) (ops : list Op) :
  forall w : World,
    balanced (counters (self w)) -> balanced (counters (self (run names ops w))).
Proof.
  induction ops as [|op ops IH]; intros w Hb.
  - exact Hb.
  - apply (IH (exec names op w)). apply exec_balanced. exact Hb.
Qed.

(** C3: in every state reached from the freshly built object, whose counters
    are [{total: 0, pass: 0, ng: 0}], by any sequence of operations of the
    system (statistics updates that commit or not, FPS ticks, loop iterations,
    start, stop, restart), [total == pass + ng]. *)
Theorem total_is_pass_plus_ng_in_every_reachable_state
        (names : list string) (now : float) (ops : list Op) :
  counters (self (boot now)) = mkStats 0 0 0
  /\ let st := counters (self (run names ops (boot now))) in
     total st = pass st + ng st.
Proof.
  split; [reflexivity|].
  apply (run_balanced names ops (boot now)). reflexivity.
Qed.

(** C10: no operation of the system decreases [total], [pass] or [ng].  An
    operation that changes them at all is a statistics update whose guard
    holds, called directly or by a loop iteration, and it adds one to [total]
    and one to exactly one of [pass] and [ng]; an FPS tick, a start, a stop
    and a restart leave them as they are.  Conversely a statistics update
    whose guard holds does change them: called directly or by an iteration
    whose model call returned, it adds one to [total] and one to [ng] when a
    defect was reported, to [pass] otherwise; one whose guard fails changes
    nothing. *)
Theorem counters_change_only_by_a_committed_update
        (names : list string) (op : Op) (w : World) :
  let st := counters (self w) in
  let st' := counters (self (exec names op w)) in
  (total st <= total st' /\ pass st <= pass st' /\ ng st <= ng st')
  /\ (st' = st
      \/ (total st' = total st + 1
          /\ ((pass st' = pass st + 1 /\ ng st' = ng st)
              \/ (pass st' = pass st /\ ng st' = ng st + 1))
          /\ exists now,
              commits (self w) now = true
              /\ ((exists hs, op = UpdateStatistics hs now)
                  \/ exists i inp, op = Iterate i inp /\ clock_stats inp = now)))
  /\ match op with
     | UpdateStatistics _ _ | Iterate _ _ => True
     | CalculateFps _ | Start _ | Stop | Restart _ => st' = st
     end
  /\ (forall hs now,
        op = UpdateStatistics hs now ->
        (commits (self w) now = true ->
         total st' = total st + 1
         /\ ng st' = (if hs then ng st + 1 else ng st)
         /\ pass st' = (if hs then pass st else pass st + 1))
        /\ (commits (self w) now = false -> st' = st))
  /\ (forall i inp c img results,
        op = Iterate i inp ->
        nth_error (threads w) i = Some AtLoopHead ->
        is_running (self w) = true ->
        camera (self w) = Some c ->
        read inp = Some img ->
        model inp = Ok results ->
        (commits (self w) (clock_stats inp) = true ->
         total st' = total st + 1
         /\ ng st' = (if flag_of names results img then ng st + 1 else ng st)
         /\ pass st' = (if flag_of names results img then pass st else pass st + 1))
        /\ (commits (self w) (clock_stats inp) = false -> st' = st)).
Proof.
  cbv zeta. split; [|split; [|split; [|split]]].
  - destruct (counters_exec names op w) as [->|[hs [now [_ [-> _]]]]];
      [lia|destruct hs; simpl; lia].
  - destruct (counters_exec names op w) as [H|[hs [now [Hc [H Hop]]]]];
      [left; exact H|right].
    rewrite H. destruct (commit_event_shape hs (counters (self w))) as [Ht Hpn].
    repeat split; [exact Ht|exact Hpn|].
    exists now. split; [exact Hc|].
    destruct Hop as [->|Hit]; [left; eauto|right; exact Hit].
  - destruct op; try exact I.
    + apply counters_calculate_fps.
    + apply counters_start_detection.
    + apply counters_stop_detection.
    + apply counters_restart_detection.
  - intros hs now ->. cbn [exec self with_self].
    rewrite counters_update_statistics. split; intros ->.
    + destruct hs; repeat split; reflexivity.
    + reflexivity.
  - intros i inp c img results -> Ht Hr Hc Hrd Hm. cbn [exec].
    unfold iterate. rewrite Ht, Hr, Hc, Hrd, counters_loop_body, Hm.
    split; intros ->.
    + destruct (flag_of names results img); repeat split; reflexivity.
    + reflexivity.
Qed.

Lemma counters_change_only_by_a_committed_update_witness :
  let w := fst (start_detection (Opened 0%nat) sample_world) in
  let inp := mkInputs (Some 5%nat) (Ok [mkResults (Some [sg_box])])
                      (of_int 1700000200) (of_int 1700000200) true in
  counters (self (exec [] (UpdateStatistics false (of_int 1700000200)) w))
  = mkStats 5 4 1
  /\ counters (self (exec [] (UpdateStatistics false (of_int 1700000101)) w))
     = mkStats 4 3 1
  /\ counters (self (exec ["sg"%string] (Iterate 0 inp) w)) = mkStats 5 3 2.
Proof.
  cbv zeta.
  pose proof (proj1 (proj1 (proj2 (proj2 (proj2
                (counters_change_only_by_a_committed_update
                   [] (UpdateStatistics false (of_int 1700000200))
                   (fst (start_detection (Opened 0%nat) sample_world))))))
                false (of_int 1700000200) eq_refl) eq_refl) as (H1 & H2 & H3).
  pose proof (proj2 (proj1 (proj2 (proj2 (proj2
                (counters_change_only_by_a_committed_update
                   [] (UpdateStatistics false (of_int 1700000101))
                   (fst (start_detection (Opened 0%nat) sample_world))))))
                false (of_int 1700000101) eq_refl) eq_refl) as H4.
  pose proof (proj1 (proj2 (proj2 (proj2 (proj2
                (counters_change_only_by_a_committed_update
                   ["sg"%string]
                   (Iterate 0 (mkInputs (Some 5%nat) (Ok [mkResults (Some [sg_box])])
                                        (of_int 1700000200) (of_int 1700000200) true))
                   (fst (start_detection (Opened 0%nat) sample_world))))))
                0%nat _ 0%nat 5%nat [mkResults (Some [sg_box])]
                eq_refl eq_refl eq_refl eq_refl eq_refl eq_refl) eq_refl)
    as (H5 & H6 & H7).
  split; [|split].
  - destruct (counters (self (exec [] (UpdateStatistics false (of_int 1700000200))
                                (fst (start_detection (Opened 0%nat) sample_world)))))
      as [t p n]. cbn in *. rewrite H1, H2, H3. reflexivity.
  - exact H4.
  - destruct (counters (self (exec ["sg"%string]
                                (Iterate 0 (mkInputs (Some 5%nat)
                                                     (Ok [mkResults (Some [sg_box])])
                                                     (of_int 1700000200)
                                                     (of_int 1700000200) true))
                                (fst (start_detection (Opened 0%nat) sample_world)))))
      as [t p n]. cbn in *. rewrite H5, H6, H7. reflexivity.
Defined.

(** Over a whole run the counters can only have grown. *)
Lemma run_counters_monotone (names : list string) (ops : list Op) :
  forall w : World,
    total (counters (self w)) <= total (counters (self (run names ops w)))
    /\ pass (counters (self w)) <= pass (counters (self (run names ops w)))
    /\ ng (counters (self w)) <= ng (counters (self (run names ops w))).
Proof.
  induction ops as [|op ops IH]; intros w.
  - cbn. lia.
  - specialize (IH (exec names op w)).
    assert (H : total (counters (self w)) <= total (counters (self (exec names op w)))
                /\ pass (counters (self w)) <= pass (counters (self (exec names op w)))
                /\ ng (counters (self w)) <= ng (counters (self (exec names op w)))).
    { destruct (counters_exec names op w) as [->|[hs [now [_ [-> _]]]]];
        [lia|destruct hs; simpl; lia]. }
    change (run names (op :: ops) w) with (run names ops (exec names op w)). lia.
Qed.

(** ** Lifecycle *)

(** C7: [start], [stop] and [restart] leave the counters alone, so after any
    sequence of lifecycle operations, whatever the camera does, [total],
    [pass] and [ng] are what they were. *)
Theorem lifecycle_preserves_counters (names : list string) (ops : list Op) :
  forallb is_lifecycle ops = true ->
  forall w : World, counters (self (run names ops w)) = counters (self w).
Proof.
  induction ops as [|op ops IH]; intros Hl w.
  - reflexivity.
  - simpl in Hl. apply andb_true_iff in Hl. destruct Hl as [Hop Hops].
    change (run names (op :: ops) w) with (run names ops (exec names op w)).
    rewrite (IH Hops).
    destruct op; try discriminate Hop.
    + apply counters_start_detection.
    + apply counters_stop_detection.
    + apply counters_restart_detection.
Qed.

Lemma lifecycle_preserves_counters_witness :
  counters (self (run [] [Start (Opened 0%nat); Stop; Restart ConstructorRaises;
                          Restart (Opened 1%nat); Start (SetRaises 2%nat); Stop]
                      sample_world))
  = mkStats 4 3 1.
Proof.
  exact (lifecycle_preserves_counters
           [] [Start (Opened 0%nat); Stop; Restart ConstructorRaises;
               Restart (Opened 1%nat); Start (SetRaises 2%nat); Stop]
           eq_refl sample_world).
Defined.

(** C9: [stop_detection] is idempotent, and in the stopped state (flag
    cleared, no camera held) it changes nothing at all. *)
Theorem stop_detection_idempotent (w : World) :
  stop_detection (stop_detection w) = stop_detection w
  /\ (is_running (self w) = false -> camera (self w) = None -> stop_detection w = w).
Proof.
  destruct w as [[cam run0 cf dr fc fs lt] ts rel em pr].
  split.
  - destruct cam; reflexivity.
  - cbn. intros -> ->. reflexivity.
Qed.

Lemma stop_detection_idempotent_witness :
  stop_detection sample_world = sample_world.
Proof.
  exact (proj2 (stop_detection_idempotent sample_world) eq_refl eq_refl).
Defined.

Lemma active_loops_spawn (w : World) : active_loops (spawn w) = S (active_loops w).
Proof.
  unfold active_loops, spawn. cbn [threads with_threads].
  rewrite filter_app, length_app. cbn. lia.
Qed.

(** C1, as stated, fails: [start_detection] has no guard on [is_running].
    Started a second time while running, it installs the second camera
    without releasing the first, starts a second thread on
    [generate_frames], and both loops pass the guard of line 111 and go on
    iterating. *)
Lemma start_while_running_spawns_a_second_loop :
  let w := fst (start_detection (Opened 0%nat) (boot (of_int 1700000000))) in
  let w' := fst (start_detection (Opened 1%nat) w) in
  let inp := mkInputs (Some 5%nat) (Ok []) (of_int 1700000001) (of_int 1700000001)
                      true in
  (is_running (self w) = true /\ active_loops w = 1%nat)
  /\ w' <> w
  /\ camera (self w') = Some 1%nat
  /\ released w' = []
  /\ active_loops w' = 2%nat
  /\ active_loops (iterate [] 1 inp (iterate [] 0 inp w')) = 2%nat.
Proof.
  cbv zeta. repeat split; try reflexivity.
  intros H. apply (f_equal active_loops) in H. vm_compute in H. discriminate.
Qed.

(** C1 (amended): in every state, already running or not, a
    [start_detection] whose camera initialisation succeeds returns [True]
    with [is_running] set, installs the camera just opened and starts exactly
    one more inspection loop, releasing nothing; one whose camera
    initialisation fails returns [False], starts no loop and leaves
    [is_running] as it was. *)
Theorem start_detection_always_spawns_one_loop (o : OpenOutcome) (w : World) :
  let w' := fst (start_detection o w) in
  let started := snd (start_detection o w) in
  released w' = released w
  /\ emitted w' = emitted w
  /\ match o with
     | Opened c =>
         started = true
         /\ is_running (self w') = true
         /\ camera (self w') = Some c
         /\ threads w' = threads w ++ [AtLoopHead]
         /\ active_loops w' = S (active_loops w)
     | ConstructorRaises | SetRaises _ =>
         started = false
         /\ is_running (self w') = is_running (self w)
         /\ threads w' = threads w
         /\ active_loops w' = active_loops w
     end.
Proof.
  destruct o as [c| |c]; cbn; repeat split.
  apply (active_loops_spawn
           (with_self (with_is_running true (with_camera (Some c) (self w))) w)).
Qed.

(** ** The inspection loop *)

(** C8: when the model call of an iteration raises, the [except] clause of
    the same iteration takes it: the frame as read, with nothing drawn on
    it, becomes [current_frame], the error is printed, nothing is pushed and
    no counter moves, and the thread is back at the head of the loop, still
    running, as is every other thread. *)
Theorem model_exception_is_caught_in_the_loop
        (names : list string) (i : nat) (inp : Inputs) (w : World)
        (c : Camera) (img : nat) (e : PyExn) :
  nth_error (threads w) i = Some AtLoopHead ->
  is_running (self w) = true ->
  camera (self w) = Some c ->
  read inp = Some img ->
  model inp = Raise e ->
  let w' := iterate names i inp w in
  current_frame (self w') = Some (raw_frame img)
  /\ overlays (raw_frame img) = []
  /\ nth_error (threads w') i = Some AtLoopHead
  /\ threads w' = threads w
  /\ active_loops w' = active_loops w
  /\ is_running (self w') = true
  /\ camera (self w') = Some c
  /\ detection_results (self w') = detection_results (self w)
  /\ emitted w' = emitted w
  /\ released w' = released w
  /\ printed w' = printed w ++ [DetectionError e].
Proof.
  intros Ht Hr Hc Hrd Hm. cbv zeta.
  unfold iterate. rewrite Ht, Hr, Hc, Hrd.
  unfold loop_body, try_block. rewrite Hm. cbn.
  repeat split; assumption.
Qed.

Lemma model_exception_is_caught_in_the_loop_witness :
  let w := fst (start_detection (Opened 0%nat) (boot (of_int 1700000000))) in
  let inp := mkInputs (Some 5%nat) (Raise ModelError) (of_int 1700000001)
                      (of_int 1700000001) true in
  let w' := iterate ["sg"%string] 0 inp w in
  current_frame (self w') = Some (raw_frame 5)
  /\ active_loops w' = 1%nat
  /\ printed w' = [DetectionError ModelError].
Proof.
  pose proof (model_exception_is_caught_in_the_loop
                ["sg"%string] 0
                (mkInputs (Some 5%nat) (Raise ModelError) (of_int 1700000001)
                          (of_int 1700000001) true)
                (fst (start_detection (Opened 0%nat) (boot (of_int 1700000000))))
                0%nat 5%nat ModelError eq_refl eq_refl eq_refl eq_refl eq_refl) as H.
  cbv zeta in H. destruct H as (H1 & _ & _ & _ & H5 & _ & _ & _ & _ & _ & H11).
  repeat split; assumption.
Defined.

(** ** Classification *)

Lemma lower_ascii_s (a : ascii) :
  lower_ascii a = "s"%char -> a = "s"%char \/ a = "S"%char.
Proof.
  destruct a as [[] [] [] [] [] [] [] []]; vm_compute; intros H;
    try discriminate H; auto.
Qed.

Lemma lower_ascii_g (a : ascii) :
  lower_ascii a = "g"%char -> a = "g"%char \/ a = "G"%char.
Proof.
  destruct a as [[] [] [] [] [] [] [] []]; vm_compute; intros H;
    try discriminate H; auto.
Qed.

(** The test of line 65 holds for the four spellings of the label and for
    nothing else. *)
Lemma is_defect_spec (name : string) :
  is_defect name = true
  <-> name = "sg"%string \/ name = "sG"%string
      \/ name = "Sg"%string \/ name = "SG"%string.
Proof.
  unfold is_defect, DEFECT_LABEL. rewrite String.eqb_eq. split.
  - destruct name as [|a [|b [|c r]]]; cbn; intros H; try discriminate H.
    injection H as Ha Hb.
    destruct (lower_ascii_s a Ha) as [-> | ->],
             (lower_ascii_g b Hb) as [-> | ->]; auto.
  - intros [-> | [-> | [-> | ->]]]; reflexivity.
Qed.

Lemma process_box_eq (names : list string) (h : bool) (ds : list DetectionInfo)
      (f : Frame) (b : Box) :
  let class_name := class_name_of names (cls b) in
  process_box names (h, ds, f) b
  = (if is_defect class_name then true else h,
     ds ++ [mkDetectionInfo class_name (conf b) (xyxy b)],
     draw (BoxLabel (xyxy b)
                    (if is_defect class_name then RED else YELLOW)
                    (if is_defect class_name then "SG - DEFECT"%string
                     else upper class_name)
                    (conf b)) f).
Proof.
  cbv zeta. unfold process_box.
  destruct (is_defect (class_name_of names (cls b))); reflexivity.
Qed.

Lemma process_boxes_flag (names : list string) (bs : list Box) :
  forall (h : bool) (ds : list DetectionInfo) (f : Frame),
    h = any_defect ds ->
    let '(h', ds', _) := fold_left (process_box names) bs (h, ds, f) in
    h' = any_defect ds'.
Proof.
  induction bs as [|b bs IH]; intros h ds f Hh.
  - exact Hh.
  - cbn [fold_left]. rewrite process_box_eq. apply IH.
    unfold any_defect. rewrite existsb_app. cbn [existsb d_class].
    rewrite orb_false_r.
    destruct (is_defect (class_name_of names (cls b))).
    + rewrite orb_true_r. reflexivity.
    + rewrite orb_false_r. exact Hh.
Qed.

Lemma process_detections_flag (names : list string) (results : list Results)
      (frame : Frame) :
  fst (fst (process_detections names results frame))
  = any_defect (snd (fst (process_detections names results frame))).
Proof.
  unfold process_detections.
  destruct results as [|r0 rest]; [reflexivity|].
  destruct (boxes r0) as [bs|]; [|reflexivity].
  pose proof (process_boxes_flag names bs false [] frame eq_refl) as H.
  destruct (fold_left (process_box names) bs (false, [], frame)) as [[h ds] f].
  exact H.
Qed.

Lemma fold_process_box (names : list string) (bs : list Box) :
  forall (h : bool) (ds : list DetectionInfo) (f : Frame),
    fold_left (process_box names) bs (h, ds, f)
    = (h || existsb (fun b => is_defect (class_name_of names (cls b))) bs,
       ds ++ map (info_of names) bs,
       mkFrame (image f) (overlays f ++ map (label_of names) bs)).
Proof.
  induction bs as [|b bs IH]; intros h ds f.
  - cbn. rewrite orb_false_r, !app_nil_r. destruct f; reflexivity.
  - cbn [fold_left]. rewrite process_box_eq, IH.
    cbn [existsb map draw image overlays]. unfold info_of, label_of.
    rewrite <- !app_assoc. cbn [app].
    destruct (is_defect (class_name_of names (cls b))); cbn [orb];
      [rewrite orb_true_r|]; reflexivity.
Qed.

Lemma process_detections_fold (names : list string) (results : list Results)
      (frame : Frame) :
  process_detections names results frame
  = fold_left (process_box names) (first_boxes results) (false, [], frame).
Proof.
  unfold process_detections, first_boxes.
  destruct results as [|r0 rest]; [reflexivity|].
  destruct (boxes r0); reflexivity.
Qed.

(** C5: [process_detections] returns one detection per box the model
    reported, in order, each with the label of its box, and its flag is true
    exactly when one of these boxes, equivalently one of the detections
    returned, carries the label "sg" in some mix of upper and lower case.
    One detection labelled "sg" with confidence 0.9 gives true, and the
    event committed with it increments [ng]; no detection gives false, and
    the event committed with it increments [pass]. *)
Theorem defect_present_iff_some_label_is_sg
        (names : list string) (results : list Results) (frame : Frame) :
  let has_sg := fst (fst (process_detections names results frame)) in
  let detections := snd (fst (process_detections names results frame)) in
  let reported := first_boxes results in
  detections = map (info_of names) reported
  /\ (has_sg = true
      <-> exists b, In b reported
                 /\ lower (class_name_of names (cls b)) = "sg"%string
                 /\ (class_name_of names (cls b) = "sg"%string
                     \/ class_name_of names (cls b) = "sG"%string
                     \/ class_name_of names (cls b) = "Sg"%string
                     \/ class_name_of names (cls b) = "SG"%string))
  /\ (has_sg = true
      <-> exists d, In d detections
                 /\ lower (d_class d) = "sg"%string
                 /\ (d_class d = "sg"%string \/ d_class d = "sG"%string
                     \/ d_class d = "Sg"%string \/ d_class d = "SG"%string))
  /\ (let one := process_detections ["sg"%string] [mkResults (Some [sg_box])] frame in
      snd (fst one) = [mkDetectionInfo "sg" (conf sg_box) (xyxy sg_box)]
      /\ fst (fst one) = true
      /\ (forall st, commit_event (fst (fst one)) st
                     = mkStats (total st + 1) (pass st) (ng st + 1))
      /\ forall s now,
          commits s now = true ->
          counters (update_statistics s (fst (fst one)) now)
          = mkStats (total (counters s) + 1) (pass (counters s))
                    (ng (counters s) + 1))
  /\ (let none := process_detections names [mkResults (Some [])] frame in
      snd (fst none) = []
      /\ fst (fst none) = false
      /\ fst (fst (process_detections names [] frame)) = false
      /\ (forall st, commit_event (fst (fst none)) st
                     = mkStats (total st + 1) (pass st + 1) (ng st))
      /\ forall s now,
          commits s now = true ->
          counters (update_statistics s (fst (fst none)) now)
          = mkStats (total (counters s) + 1) (pass (counters s) + 1)
                    (ng (counters s))).
Proof.
  cbv zeta. split; [|split; [|split; [|split]]].
  - rewrite process_detections_fold, fold_process_box. reflexivity.
  - rewrite process_detections_fold, fold_process_box. cbn [fst orb].
    rewrite existsb_exists. split.
    + intros [b [Hin Hd]]. exists b. split; [exact Hin|]. split.
      * apply String.eqb_eq. exact Hd.
      * apply is_defect_spec. exact Hd.
    + intros [b [Hin [_ Hd]]]. exists b. split; [exact Hin|].
      apply is_defect_spec. exact Hd.
  - rewrite process_detections_flag. unfold any_defect. rewrite existsb_exists.
    split.
    + intros [d [Hin Hd]]. exists d. split; [exact Hin|]. split.
      * apply String.eqb_eq. exact Hd.
      * apply is_defect_spec. exact Hd.
    + intros [d [Hin [_ Hd]]]. exists d. split; [exact Hin|].
      apply is_defect_spec. exact Hd.
  - repeat split.
    intros s now Hc. rewrite counters_update_statistics, Hc. reflexivity.
  - repeat split.
    intros s now Hc. rewrite counters_update_statistics, Hc. reflexivity.
Qed.

Lemma defect_present_iff_some_label_is_sg_witness :
  let s := init (of_int 1700000000) in
  let one := process_detections ["sg"%string] [mkResults (Some [sg_box])]
                                (raw_frame 0) in
  let none := process_detections ["sg"%string] [mkResults (Some [])] (raw_frame 0) in
  counters (update_statistics s (fst (fst one)) (of_int 1700000005)) = mkStats 1 0 1
  /\ counters (update_statistics s (fst (fst none)) (of_int 1700000005))
     = mkStats 1 1 0.
Proof.
  pose proof (defect_present_iff_some_label_is_sg
                ["sg"%string] [mkResults (Some [sg_box])] (raw_frame 0))
    as (_ & _ & _ & (_ & _ & _ & Hone) & (_ & _ & _ & _ & Hnone)).
  split.
  - exact (Hone (init (of_int 1700000000)) (of_int 1700000005) eq_refl).
  - exact (Hnone (init (of_int 1700000000)) (of_int 1700000005) eq_refl).
Defined.

(** ** The pushed status event *)

Lemma int_truediv_guarded (a b : Z) :
  b <> 0 -> int_truediv a b <> Raise ZeroDivisionError.
Proof.
  intros Hb. unfold int_truediv.
  destruct (b =? 0) eqn:E; [apply Z.eqb_eq in E; contradiction|].
  destruct (is_infinite _); discriminate.
Qed.

Lemma loop_body_emitted (names : list string) (inp : Inputs) (img : nat) (w : World) :
  emitted (loop_body names inp img w) = emitted w
  \/ exists status rate frame,
      let st := counters (self (loop_body names inp img w)) in
      ng_rate st = Ok rate
      /\ emitted (loop_body names inp img w)
         = emitted w
           ++ [detection_result status (pass st) (ng st) (total st) rate;
               video_frame frame].
Proof.
  unfold loop_body, try_block.
  destruct (model inp) as [results|e]; [|left; reflexivity].
  destruct (process_detections names results (raw_frame img)) as [[hs ds] f].
  cbv zeta.
  destruct (imencode_ok inp); [|left; reflexivity].
  destruct (ng_rate _) as [rate|e] eqn:E; [|left; reflexivity].
  right. exists (status_of hs), rate. eexists.
  cbn [self with_self emit emitted fst snd].
  split; [exact E|reflexivity].
Qed.

(** C6: the [detection_result] event pushed by an iteration carries the
    counters as the iteration leaves them and, as [ng_rate],
    [round(ng / max(1, total) * 100, 1)] computed on them.  On
    [{pass: 3, ng: 1, total: 4}] the rate is 25.0.  The divisor
    [max(1, total)] is never zero, so the division never raises
    [ZeroDivisionError]; for [total == 0] it is 1, and on the initial
    counters the rate is 0.0. *)
Theorem ng_rate_of_the_pushed_event
        (names : list string) (inp : Inputs) (img : nat) (w : World) :
  (forall status p n t rate,
      In (detection_result status p n t rate) (pushed names inp img w) ->
      let st := counters (self (loop_body names inp img w)) in
      p = pass st /\ n = ng st /\ t = total st
      /\ (q <- int_truediv n (Z.max 1 t) ;; Ok (round1 (mul q (of_int 100))))
         = Ok rate)
  /\ ng_rate (mkStats 4 3 1) = Ok (of_int 25)
  /\ (forall st, ng_rate st <> Raise ZeroDivisionError)
  /\ (forall st, total st = 0 ->
                 ng_rate st
                 = (q <- int_truediv (ng st) 1 ;; Ok (round1 (mul q (of_int 100)))))
  /\ ng_rate (mkStats 0 0 0) = Ok (of_int 0).
Proof.
  split; [|split; [|split; [|split]]].
  - intros status p n t rate Hin. cbv zeta. unfold pushed in Hin.
    destruct (loop_body_emitted names inp img w)
      as [He|[status' [rate' [frame [Hr He]]]]].
    + rewrite He, skipn_all in Hin. destruct Hin.
    + cbv zeta in Hr, He. rewrite He, skipn_app, skipn_all, Nat.sub_diag in Hin.
      cbn in Hin. destruct Hin as [Heq|[Heq|[]]]; [|discriminate Heq].
      injection Heq as <- <- <- <- <-. repeat split. exact Hr.
  - vm_compute. reflexivity.
  - intros st. unfold ng_rate.
    pose proof (int_truediv_guarded (ng st) (Z.max 1 (total st))) as H.
    destruct (int_truediv (ng st) (Z.max 1 (total st))) as [q|e] eqn:E.
    + discriminate.
    + cbn. intros Heq. injection Heq as ->. apply H; [lia|reflexivity].
  - intros st Ht. unfold ng_rate. rewrite Ht. reflexivity.
  - vm_compute. reflexivity.
Qed.

Lemma ng_rate_of_the_pushed_event_witness :
  let inp := mkInputs (Some 5%nat) (Ok []) (of_int 1700000101) (of_int 1700000101)
                      true in
  let w := fst (start_detection (Opened 0%nat) sample_world) in
  In (detection_result "PASS" 3 1 4 (of_int 25)) (pushed [] inp 5%nat w)
  /\ (q <- int_truediv 1 (Z.max 1 4) ;; Ok (round1 (mul q (of_int 100))))
     = Ok (of_int 25).
Proof.
  cbv zeta.
  assert (Hin : In (detection_result "PASS" 3 1 4 (of_int 25))
                   (pushed [] (mkInputs (Some 5%nat) (Ok []) (of_int 1700000101)
                                        (of_int 1700000101) true)
                           5%nat (fst (start_detection (Opened 0%nat) sample_world))))
    by (vm_compute; left; reflexivity).
  split; [exact Hin|].
  exact (proj2 (proj2 (proj2
           (proj1 (ng_rate_of_the_pushed_event _ _ _ _) _ _ _ _ _ Hin)))).
Defined.

(** * Further properties of the code *)

(** ** Runs and invariants *)

Lemma run_cons (names : list string) (op : Op) (ops : list Op) (w : World) :
  run names (op :: ops) w = run names ops (exec names op w).
Proof. reflexivity. Qed.

(** A property of worlds kept by every operation holds after every run. *)
Lemma run_invariant (names : list string) (P : World -> Prop) :
  (forall op w, P w -> P (exec names op w)) ->
  forall ops w, P w -> P (run names ops w).
Proof.
  intros Hstep ops. induction ops as [|op ops IH]; intros w Hw.
  - exact Hw.
  - rewrite run_cons. apply IH, Hstep, Hw.
Qed.

Lemma exec_counters_in_range (names : list string) (op : Op) (w : World) :
  counters_in_range w -> counters_in_range (exec names op w).
Proof.
  unfold counters_in_range. cbv zeta. intros H.
  destruct (counters_exec names op w) as [->|[hs [now [_ [-> _]]]]];
    [exact H|destruct hs; simpl; lia].
Qed.

Lemma run_counters_in_range (names : list string) (now : float) (ops : list Op) :
  counters_in_range (run names ops (boot now)).
Proof.
  apply (run_invariant names counters_in_range (exec_counters_in_range names)).
  unfold counters_in_range. cbn. lia.
Qed.

(** ** The statistics tracker, continued *)

(** X1: over any run of statistics updates, [total] grows by the number of
    calls whose guard held, [ng] by the number of those that reported a
    defect, and [pass] by the number of the others. *)
Theorem counters_count_the_commits (calls : list (bool * float)) :
  forall s : YOLODetectionSystem,
    let s' := update_all s calls in
    total (counters s') = total (counters s) + Z.of_nat (count_commits s calls)
    /\ ng (counters s') = ng (counters s) + Z.of_nat (count_ng_commits s calls)
    /\ pass (counters s')
       = pass (counters s)
         + (Z.of_nat (count_commits s calls) - Z.of_nat (count_ng_commits s calls)).
Proof.
  induction calls as [|[hs t] rest IH]; intros s; cbv zeta.
  - cbn. lia.
  - specialize (IH (update_statistics s hs t)). cbv zeta in IH.
    change (update_all s ((hs, t) :: rest))
      with (update_all (update_statistics s hs t) rest).
    destruct IH as (Ht & Hn & Hp). rewrite Ht, Hn, Hp.
    rewrite counters_update_statistics.
    cbn [count_commits count_ng_commits fst snd].
    destruct (commits s t), hs; cbn [andb commit_event total pass ng]; lia.
Qed.

(** X2: in every state the system can reach from its start, no counter is
    negative and neither [pass] nor [ng] exceeds [total]. *)
Theorem counters_stay_in_range (names : list string) (now : float) (ops : list Op) :
  let st := counters (self (run names ops (boot now))) in
  0 <= pass st <= total st /\ 0 <= ng st <= total st.
Proof.
  pose proof (run_counters_in_range names now ops) as H.
  unfold counters_in_range in H. cbv zeta in *. lia.
Qed.

(** X3: as long as no part has been counted, the rate computed for the
    dashboard is 0.0: in every reachable state with [total == 0],
    [ng_rate] is [0.0] and raises nothing. *)
Theorem rate_is_zero_before_the_first_commit
        (names : list string) (now : float) (ops : list Op) :
  total (counters (self (run names ops (boot now)))) = 0 ->
  ng_rate (counters (self (run names ops (boot now)))) = Ok (of_int 0).
Proof.
  intros Ht.
  pose proof (run_counters_in_range names now ops) as H.
  unfold counters_in_range in H. cbv zeta in H.
  assert (Hn : ng (counters (self (run names ops (boot now)))) = 0) by lia.
  unfold ng_rate. rewrite Hn, Ht. vm_compute. reflexivity.
Qed.

Lemma rate_is_zero_before_the_first_commit_witness :
  ng_rate (counters (self (run [] [Start (Opened 0%nat);
                                   UpdateStatistics true (of_int 2);
                                   CalculateFps (of_int 2); Stop]
                               (boot (of_int 1)))))
  = Ok (of_int 0).
Proof.
  exact (rate_is_zero_before_the_first_commit
           [] (of_int 1)
           [Start (Opened 0%nat); UpdateStatistics true (of_int 2);
            CalculateFps (of_int 2); Stop]
           eq_refl).
Defined.

(** ** The FPS counter *)

Lemma calculate_fps_no_roll (s : YOLODetectionSystem) (now : float) :
  rolls s now = false ->
  calculate_fps s now = with_fps_counter (fps_counter s + 1) s.
Proof.
  unfold rolls, calculate_fps. cbn [fps_start_time with_fps_counter].
  intros ->. reflexivity.
Qed.

Lemma calculate_fps_roll (s : YOLODetectionSystem) (now : float) :
  rolls s now = true ->
  calculate_fps s now
  = mkSystem (camera s) (is_running s) (current_frame s)
             (set_fps (fps_counter s + 1) (detection_results s))
             0 now (last_detection_time s).
Proof.
  unfold rolls, calculate_fps. cbn [fps_start_time with_fps_counter].
  intros ->. reflexivity.
Qed.

Lemma tick_all_no_roll (ticks : list float) :
  forall s : YOLODetectionSystem,
    Forall (fun t => rolls s t = false) ticks ->
    fps_counter (tick_all s ticks) = fps_counter s + Z.of_nat (List.length ticks)
    /\ fps_start_time (tick_all s ticks) = fps_start_time s
    /\ detection_results (tick_all s ticks) = detection_results s.
Proof.
  induction ticks as [|t ticks IH]; intros s Hall.
  - cbn. repeat split. lia.
  - inversion Hall as [|? ? Ht Hrest]; subst.
    change (tick_all s (t :: ticks)) with (tick_all (calculate_fps s t) ticks).
    rewrite (calculate_fps_no_roll s t Ht).
    destruct (IH (with_fps_counter (fps_counter s + 1) s) Hrest) as (Hc & Hs & Hd).
    rewrite Hc, Hs, Hd. cbn [fps_counter fps_start_time detection_results
                             with_fps_counter List.length].
    repeat split. lia.
Qed.

(** X4: the FPS shown is the number of frames of the window just closed.
    After any ticks that come less than 1.0 second after the start of the
    window, the first tick at 1.0 second or later sets [fps] to the count
    the window began with plus one per tick, itself included, resets the
    count to zero and starts the next window at its own clock reading. *)
Theorem fps_is_the_frame_count_of_the_closed_window
        (s : YOLODetectionSystem) (ticks : list float) (now : float) :
  Forall (fun t => rolls s t = false) ticks ->
  rolls s now = true ->
  let s' := calculate_fps (tick_all s ticks) now in
  fps (detection_results s') = fps_counter s + Z.of_nat (List.length ticks) + 1
  /\ fps_counter s' = 0
  /\ fps_start_time s' = now
  /\ fps (detection_results (tick_all s ticks)) = fps (detection_results s).
Proof.
  intros Hall Hroll. cbv zeta.
  destruct (tick_all_no_roll ticks s Hall) as (Hc & Hs & Hd).
  assert (Hr : rolls (tick_all s ticks) now = true)
    by (unfold rolls in *; rewrite Hs; exact Hroll).
  rewrite (calculate_fps_roll _ now Hr), Hd.
  cbn [detection_results fps set_fps fps_counter fps_start_time].
  rewrite Hc. repeat split.
Qed.

Lemma fps_is_the_frame_count_of_the_closed_window_witness :
  let s := init (of_int 100) in
  let s' := calculate_fps (tick_all s [of_int 100; of_int 100]) (of_int 101) in
  fps (detection_results s') = 3 /\ fps_counter s' = 0
  /\ fps_start_time s' = of_int 101.
Proof.
  assert (Hall : Forall (fun t => rolls (init (of_int 100)) t = false)
                        [of_int 100; of_int 100]) by (repeat constructor).
  pose proof (fps_is_the_frame_count_of_the_closed_window
                (init (of_int 100)) [of_int 100; of_int 100] (of_int 101)
                Hall eq_refl) as (H1 & H2 & H3 & _).
  repeat split; assumption.
Defined.

(** ** Classification, continued *)

(** X5: [process_detections] looks at [results[0].boxes] only and treats
    the boxes one by one, in order.  For boxes as the detector returns them,
    four corners inside the image, and class names written in ASCII, it
    returns one [detection_info] per box, and the frame it was given with
    one label per box added after what was already drawn, red and marked
    "SG - DEFECT" for a defect, yellow with the class name in upper case
    otherwise.  With no result, or no boxes, it returns no detection and the
    frame as it was. *)
Theorem process_detections_maps_the_first_boxes
        (names : list string) (results : list Results) (frame : Frame)
        (width height : Z) :
  Forall (fun b => in_image width height b = true) (first_boxes results) ->
  Forall (fun b => is_ascii (class_name_of names (cls b)) = true)
         (first_boxes results) ->
  let bs := first_boxes results in
  process_detections names results frame
  = (existsb (fun b => is_defect (class_name_of names (cls b))) bs,
     map (info_of names) bs,
     mkFrame (image frame) (overlays frame ++ map (label_of names) bs))
  /\ List.length (snd (fst (process_detections names results frame)))
     = List.length bs
  /\ process_detections names [] frame = (false, [], frame)
  /\ (forall rest, process_detections names (mkResults None :: rest) frame
                   = (false, [], frame))
  /\ (forall rest, process_detections names (mkResults (Some []) :: rest) frame
                   = (false, [], frame)).
Proof.
  intros _ _. cbv zeta.
  assert (H : process_detections names results frame
              = (existsb (fun b => is_defect (class_name_of names (cls b)))
                         (first_boxes results),
                 map (info_of names) (first_boxes results),
                 mkFrame (image frame)
                         (overlays frame ++ map (label_of names) (first_boxes results)))).
  { rewrite process_detections_fold, fold_process_box. reflexivity. }
  split; [exact H|split; [|repeat split]].
  rewrite H. cbn [fst snd]. apply length_map.
Qed.

Lemma process_detections_maps_the_first_boxes_witness :
  process_detections ["ok"%string; "sg"%string]
                     [mkResults (Some [sg_box;
                                       mkBox [of_int 5; of_int 6; of_int 70; of_int 80]
                                             (of_int 1) 1]);
                      mkResults (Some [sg_box])]
                     (raw_frame 7)
  = (true,
     [mkDetectionInfo "ok" (conf sg_box) (xyxy sg_box);
      mkDetectionInfo "sg" (of_int 1) [of_int 5; of_int 6; of_int 70; of_int 80]],
     mkFrame 7 [BoxLabel (xyxy sg_box) YELLOW "OK" (conf sg_box);
                BoxLabel [of_int 5; of_int 6; of_int 70; of_int 80] RED
                         "SG - DEFECT" (of_int 1)]).
Proof.
  assert (H1 : Forall (fun b => in_image 1280 720 b = true)
                      (first_boxes
                         [mkResults (Some [sg_box;
                                           mkBox [of_int 5; of_int 6; of_int 70;
                                                  of_int 80] (of_int 1) 1]);
                          mkResults (Some [sg_box])]))
    by (repeat constructor).
  assert (H2 : Forall (fun b => is_ascii (class_name_of ["ok"%string; "sg"%string]
                                                        (cls b)) = true)
                      (first_boxes
                         [mkResults (Some [sg_box;
                                           mkBox [of_int 5; of_int 6; of_int 70;
                                                  of_int 80] (of_int 1) 1]);
                          mkResults (Some [sg_box])]))
    by (repeat constructor).
  exact (proj1 (process_detections_maps_the_first_boxes
                  ["ok"%string; "sg"%string] _ (raw_frame 7) 1280 720 H1 H2)).
Defined.

Lemma unknown_class_name (names : list string) (class_id : nat) :
  (List.length names <= class_id)%nat ->
  class_name_of names class_id = ("Class_" ++ decimal class_id)%string
  /\ is_defect (class_name_of names class_id) = false.
Proof.
  intros H. unfold class_name_of.
  destruct (class_id <? List.length names)%nat eqn:E;
    [apply Nat.ltb_lt in E; lia|].
  split; reflexivity.
Qed.

(** X6: a class id outside the model's table of names gets the name
    "Class_<id>", which is never the defect label: a frame whose boxes, four
    corners inside the image each, all carry such ids is never flagged,
    whatever the table holds. *)
Theorem unknown_classes_are_never_defects
        (names : list string) (results : list Results) (frame : Frame)
        (width height : Z) :
  Forall (fun b => in_image width height b = true) (first_boxes results) ->
  Forall (fun b => (List.length names <= cls b)%nat) (first_boxes results) ->
  fst (fst (process_detections names results frame)) = false
  /\ Forall (fun d => exists id, d_class d = ("Class_" ++ decimal id)%string)
            (snd (fst (process_detections names results frame))).
Proof.
  intros _ Hall.
  rewrite process_detections_fold, fold_process_box. cbn [fst snd orb app].
  revert Hall. generalize (first_boxes results) as bs. intros bs Hall.
  induction Hall as [|b bs Hb Hbs [IH1 IH2]].
  - split; [reflexivity|constructor].
  - destruct (unknown_class_name names (cls b) Hb) as [Hn Hd].
    cbn [existsb map]. rewrite Hd. split; [exact IH1|].
    constructor; [|exact IH2]. exists (cls b). exact Hn.
Qed.

Lemma unknown_classes_are_never_defects_witness :
  let results :=
    [mkResults (Some [mkBox [of_int 0; of_int 0; of_int 10; of_int 10] (of_int 1) 1;
                      mkBox [of_int 20; of_int 30; of_int 640; of_int 480]
                            (of_int 1) 12])] in
  fst (fst (process_detections ["sg"%string] results (raw_frame 0))) = false
  /\ map d_class (snd (fst (process_detections ["sg"%string] results (raw_frame 0))))
     = ["Class_1"%string; "Class_12"%string].
Proof.
  cbv zeta.
  assert (H1 : Forall (fun b => in_image 1280 720 b = true)
                      (first_boxes
                         [mkResults (Some [mkBox [of_int 0; of_int 0; of_int 10;
                                                  of_int 10] (of_int 1) 1;
                                           mkBox [of_int 20; of_int 30; of_int 640;
                                                  of_int 480] (of_int 1) 12])]))
    by (repeat constructor).
  assert (H2 : Forall (fun b => (List.length ["sg"%string] <= cls b)%nat)
                      (first_boxes
                         [mkResults (Some [mkBox [of_int 0; of_int 0; of_int 10;
                                                  of_int 10] (of_int 1) 1;
                                           mkBox [of_int 20; of_int 30; of_int 640;
                                                  of_int 480] (of_int 1) 12])]))
    by (repeat constructor).
  split; [|reflexivity].
  exact (proj1 (unknown_classes_are_never_defects
                  ["sg"%string] _ (raw_frame 0) 1280 720 H1 H2)).
Defined.

(** ** The inspection loop, continued *)

(** What the body does when the model call returns. *)
Lemma loop_body_ok (names : list string) (inp : Inputs) (img : nat) (w : World)
      (results : list Results) :
  model inp = Ok results ->
  let s1 := tracked names results img inp (self w) in
  let f := annotated names results img (fps (detection_results s1)) in
  let sent :=
    if imencode_ok inp then
      match ng_rate (counters s1) with
      | Ok rate => [detection_result (status_of (flag_of names results img))
                                     (pass (counters s1)) (ng (counters s1))
                                     (total (counters s1)) rate;
                    video_frame f]
      | Raise _ => []
      end
    else [] in
  let said :=
    if imencode_ok inp then
      match ng_rate (counters s1) with
      | Ok _ => []
      | Raise e => [DetectionError e]
      end
    else [] in
  loop_body names inp img w
  = mkWorld (with_current_frame (Some f) s1) (threads w) (released w)
            (emitted w ++ sent) (printed w ++ said).
Proof.
  intros Hm. cbv zeta.
  unfold loop_body, try_block, tracked, annotated, flag_of, found, boxed.
  rewrite Hm.
  destruct (process_detections names results (raw_frame img)) as [[hs ds] f0].
  cbn [fst snd].
  destruct (imencode_ok inp).
  - destruct (ng_rate _) as [rate|e]; cbn; rewrite ?app_nil_r; reflexivity.
  - cbn. rewrite !app_nil_r. reflexivity.
Qed.

Lemma loop_body_raise (names : list string) (inp : Inputs) (img : nat) (w : World)
      (e : PyExn) :
  model inp = Raise e ->
  loop_body names inp img w
  = mkWorld (with_current_frame (Some (raw_frame img)) (self w)) (threads w)
            (released w) (emitted w) (printed w ++ [DetectionError e]).
Proof.
  intros Hm. unfold loop_body, try_block. rewrite Hm. reflexivity.
Qed.

Lemma detected_update_statistics (s : YOLODetectionSystem) (hs : bool) (now : float) :
  has_sg (detection_results (update_statistics s hs now))
  = has_sg (detection_results s)
  /\ detections (detection_results (update_statistics s hs now))
     = detections (detection_results s)
  /\ fps (detection_results (update_statistics s hs now))
     = fps (detection_results s)
  /\ fps_counter (update_statistics s hs now) = fps_counter s.
Proof.
  unfold update_statistics. rewrite last_or_zero_ensure.
  destruct (gt (sub now (last_or_zero s)) DEBOUNCE);
    destruct s as [cam run0 cf dr fc fs [l|]]; repeat split.
Qed.

Lemma detected_calculate_fps (s : YOLODetectionSystem) (now : float) :
  has_sg (detection_results (calculate_fps s now)) = has_sg (detection_results s)
  /\ detections (detection_results (calculate_fps s now))
     = detections (detection_results s).
Proof.
  destruct (rolls s now) eqn:E.
  - rewrite calculate_fps_roll by exact E. split; reflexivity.
  - rewrite calculate_fps_no_roll by exact E. split; reflexivity.
Qed.

Lemma detected_tracked (names : list string) (results : list Results) (img : nat)
      (inp : Inputs) (s : YOLODetectionSystem) :
  has_sg (detection_results (tracked names results img inp s))
  = flag_of names results img
  /\ detections (detection_results (tracked names results img inp s))
     = found names results img.
Proof.
  unfold tracked. cbv zeta.
  destruct (detected_calculate_fps
              (update_statistics
                 (with_detection_results
                    (set_detected (flag_of names results img)
                                  (found names results img) (detection_results s)) s)
                 (flag_of names results img) (clock_stats inp))
              (clock_fps inp)) as [-> ->].
  destruct (detected_update_statistics
              (with_detection_results
                 (set_detected (flag_of names results img)
                               (found names results img) (detection_results s)) s)
              (flag_of names results img) (clock_stats inp)) as (-> & -> & _).
  split; reflexivity.
Qed.

(** A property of the object kept by each of the assignments the methods
    make is kept by every operation of the system. *)
Lemma exec_self_invariant (names : list string) (P : YOLODetectionSystem -> Prop) :
  (forall s hs t, P s -> P (update_statistics s hs t)) ->
  (forall s t, P s -> P (calculate_fps s t)) ->
  (forall s c, P s -> P (with_camera c s)) ->
  (forall s b, P s -> P (with_is_running b s)) ->
  (forall s f, P s -> P (with_current_frame f s)) ->
  (forall s results img,
      P s ->
      P (with_detection_results
           (set_detected (flag_of names results img) (found names results img)
                         (detection_results s)) s)) ->
  forall op w, P (self w) -> P (self (exec names op w)).
Proof.
  intros Hu Hf Hc Hr Hcf Hd op w Hw.
  assert (Hstop : P (self (stop_detection w))).
  { unfold stop_detection. cbn [self with_self camera with_is_running].
    destruct (camera (self w)); cbn [self with_self release]; auto. }
  assert (Hstart : forall o w0, P (self w0) -> P (self (fst (start_detection o w0)))).
  { intros o w0 H0. destruct o; cbn; auto. }
  destruct op as [hs now|now|o| |o|i inp]; cbn [exec].
  - apply Hu, Hw.
  - apply Hf, Hw.
  - apply Hstart, Hw.
  - exact Hstop.
  - unfold restart_detection. apply Hstart, Hstop.
  - unfold iterate.
    destruct (nth_error (threads w) i) as [[|]|]; try exact Hw.
    destruct (is_running (self w)); [|exact Hw].
    destruct (camera (self w)); [|exact Hw].
    destruct (read inp) as [img|]; [|exact Hw].
    destruct (model inp) as [results|e] eqn:Hm.
    + rewrite (loop_body_ok names inp img w results Hm). cbn [self].
      apply Hcf. unfold tracked. apply Hf, Hu, Hd, Hw.
    + rewrite (loop_body_raise names inp img w e Hm). cbn [self].
      apply Hcf, Hw.
Qed.

(** X7: in every state the system can reach from its start, the flag
    [detection_results['has_sg']] says whether the list
    [detection_results['detections']] holds a detection with the defect
    label: the two are always written together. *)
Theorem stored_flag_matches_stored_detections
        (names : list string) (now : float) (ops : list Op) :
  let r := detection_results (self (run names ops (boot now))) in
  has_sg r = true
  <-> exists d, In d (detections r) /\ lower (d_class d) = "sg"%string.
Proof.
  cbv zeta.
  assert (H : flag_matches (self (run names ops (boot now)))).
  { apply (run_invariant names (fun w => flag_matches (self w))); [|reflexivity].
    apply (exec_self_invariant names flag_matches); unfold flag_matches.
    - intros s hs t Hs.
      destruct (detected_update_statistics s hs t) as (-> & -> & _). exact Hs.
    - intros s t Hs. destruct (detected_calculate_fps s t) as [-> ->]. exact Hs.
    - intros s c Hs. exact Hs.
    - intros s b Hs. exact Hs.
    - intros s f Hs. exact Hs.
    - intros s results img _. cbn [detection_results with_detection_results
                                   has_sg detections set_detected].
      unfold flag_of, found. apply process_detections_flag. }
  unfold flag_matches in H. rewrite H. unfold any_defect.
  rewrite existsb_exists. unfold is_defect, DEFECT_LABEL.
  split; intros [d [Hin Hd]]; exists d; (split; [exact Hin|]);
    apply String.eqb_eq; exact Hd.
Qed.

Lemma fps_in_range_calculate_fps (s : YOLODetectionSystem) (now : float) :
  fps_in_range s -> fps_in_range (calculate_fps s now).
Proof.
  unfold fps_in_range. intros [H1 H2].
  destruct (rolls s now) eqn:E.
  - rewrite calculate_fps_roll by exact E. cbn. lia.
  - rewrite calculate_fps_no_roll by exact E. cbn. lia.
Qed.

(** X8: in every state the system can reach from its start, the frame
    count of the open window and the FPS shown are not negative. *)
Theorem fps_is_never_negative (names : list string) (now : float) (ops : list Op) :
  let s := self (run names ops (boot now)) in
  0 <= fps_counter s /\ 0 <= fps (detection_results s).
Proof.
  cbv zeta.
  apply (run_invariant names (fun w => fps_in_range (self w)));
    [|unfold fps_in_range; cbn; lia].
  apply (exec_self_invariant names fps_in_range).
  - intros s hs t Hs. unfold fps_in_range in *.
    destruct (detected_update_statistics s hs t) as (_ & _ & -> & ->). exact Hs.
  - intros s t. apply fps_in_range_calculate_fps.
  - intros s c Hs. exact Hs.
  - intros s b Hs. exact Hs.
  - intros s f Hs. exact Hs.
  - intros s results img Hs. exact Hs.
Qed.

(** ** Threads *)

Lemma active_loops_live_count (w : World) : active_loops w = live_count (threads w).
Proof. reflexivity. Qed.

Lemma set_nth_same {A : Type} (l : list A) :
  forall (i : nat) (x : A), nth_error l i = Some x -> set_nth i x l = l.
Proof.
  induction l as [|y l IH]; intros [|i] x H; cbn in *; try discriminate.
  - injection H as ->. reflexivity.
  - rewrite (IH i x H). reflexivity.
Qed.

Lemma set_nth_out {A : Type} (l : list A) :
  forall (i : nat) (x : A), nth_error l i = None -> set_nth i x l = l.
Proof.
  induction l as [|y l IH]; intros [|i] x H; cbn in *; try discriminate;
    try reflexivity.
  rewrite (IH i x H). reflexivity.
Qed.

Lemma set_nth_app {A : Type} (pre : list A) (y x : A) (post : list A) :
  set_nth (List.length pre) x (pre ++ y :: post) = pre ++ x :: post.
Proof. induction pre as [|z pre IH]; cbn; [|rewrite IH]; reflexivity. Qed.

Lemma nth_error_set_nth_other {A : Type} (l : list A) :
  forall (i j : nat) (x : A), i <> j -> nth_error (set_nth i x l) j = nth_error l j.
Proof.
  induction l as [|y l IH]; intros [|i] [|j] x H; cbn; try reflexivity.
  - contradiction.
  - apply IH. intros ->. apply H. reflexivity.
Qed.

Lemma nth_error_set_nth_same {A : Type} (l : list A) :
  forall (i : nat) (x y : A), nth_error l i = Some y -> nth_error (set_nth i x l) i = Some x.
Proof.
  induction l as [|z l IH]; intros [|i] x y H; cbn in *; try discriminate.
  - reflexivity.
  - apply (IH i x y H).
Qed.

Lemma live_count_exit (ts : list LoopState) :
  forall i : nat,
    nth_error ts i = Some AtLoopHead ->
    S (live_count (set_nth i Exited ts)) = live_count ts.
Proof.
  unfold live_count.
  induction ts as [|t ts IH]; intros [|i] H; cbn in *; try discriminate.
  - injection H as ->. reflexivity.
  - destruct t; cbn; rewrite <- (IH i H); reflexivity.
Qed.

Lemma live_count_repeat_exited (n : nat) : live_count (repeat Exited n) = O.
Proof. induction n as [|n IH]; [reflexivity|exact IH]. Qed.

Lemma live_count_app (l1 l2 : list LoopState) :
  live_count (l1 ++ l2) = (live_count l1 + live_count l2)%nat.
Proof. unfold live_count. rewrite filter_app, length_app. reflexivity. Qed.

Lemma exit_in_order (post : list LoopState) :
  forall pre : list LoopState,
    fold_left (fun ts i => set_nth i Exited ts)
              (seq (List.length pre) (List.length post)) (pre ++ post)
    = pre ++ repeat Exited (List.length post).
Proof.
  induction post as [|t post IH]; intros pre.
  - reflexivity.
  - cbn [List.length seq fold_left repeat]. rewrite set_nth_app.
    replace (S (List.length pre)) with (List.length (pre ++ [Exited]))
      by (rewrite length_app; cbn; lia).
    replace (pre ++ Exited :: post) with ((pre ++ [Exited]) ++ post)
      by (rewrite <- app_assoc; reflexivity).
    rewrite IH, <- app_assoc. reflexivity.
Qed.

(** What a turn does when the guard of line 111 fails. *)
Lemma iterate_guard_fails (names : list string) (i : nat) (inp : Inputs) (w : World) :
  is_running (self w) = false \/ camera (self w) = None ->
  iterate names i inp w = with_threads (set_nth i Exited (threads w)) w.
Proof.
  intros Hg. unfold iterate.
  assert (Hsame : forall ts, ts = threads w -> w = with_threads ts w)
    by (intros ts ->; destruct w; reflexivity).
  destruct (nth_error (threads w) i) as [[|]|] eqn:Ht.
  - destruct Hg as [-> | Hc].
    + reflexivity.
    + rewrite Hc. destruct (is_running (self w)); reflexivity.
  - apply Hsame. apply (set_nth_same _ _ _ Ht).
  - apply Hsame. apply (set_nth_out _ _ _ Ht).
Qed.

Lemma turns_guard_fails (names : list string) (inps : nat -> Inputs) (idx : list nat) :
  forall w : World,
    is_running (self w) = false \/ camera (self w) = None ->
    fold_left (fun w i => iterate names i (inps i) w) idx w
    = with_threads (fold_left (fun ts i => set_nth i Exited ts) idx (threads w)) w.
Proof.
  induction idx as [|i idx IH]; intros w Hg.
  - destruct w; reflexivity.
  - cbn [fold_left]. rewrite (iterate_guard_fails names i (inps i) w Hg).
    rewrite IH by exact Hg. reflexivity.
Qed.

(** X9: stopping is cooperative and complete.  [stop_detection] itself
    ends no loop, but once every thread has taken its next turn after it,
    whatever the camera and the model would have answered, no loop is left
    running, and those turns changed nothing in the object, pushed no event
    and released nothing further. *)
Theorem stop_ends_every_loop_at_its_next_turn
        (names : list string) (inps : nat -> Inputs) (w : World) :
  let stopped := stop_detection w in
  let w' := one_turn_each names inps stopped in
  active_loops stopped = active_loops w
  /\ active_loops w' = O
  /\ self w' = self stopped
  /\ emitted w' = emitted w
  /\ released w' = released stopped
  /\ printed w' = printed w.
Proof.
  cbv zeta.
  assert (Hg : is_running (self (stop_detection w)) = false
               \/ camera (self (stop_detection w)) = None).
  { left. unfold stop_detection. cbn. destruct (camera (self w)); reflexivity. }
  unfold one_turn_each. rewrite (turns_guard_fails names inps _ _ Hg).
  cbn [threads with_threads self emitted released printed].
  pose proof (exit_in_order (threads (stop_detection w)) []) as He.
  cbn [app List.length] in He. rewrite He.
  split; [|split; [|repeat split]].
  - unfold stop_detection. cbn. destruct (camera (self w)); reflexivity.
  - rewrite active_loops_live_count. cbn [threads with_threads].
    apply live_count_repeat_exited.
  - unfold stop_detection. cbn. destruct (camera (self w)); reflexivity.
  - unfold stop_detection. cbn. destruct (camera (self w)); reflexivity.
Qed.

(** X10: when the camera delivers no frame the loop just leaves: the
    thread is gone, but [is_running] stays set and the camera stays held,
    unreleased, until someone calls [stop_detection]. *)
Theorem read_failure_ends_the_loop_and_nothing_else
        (names : list string) (i : nat) (inp : Inputs) (w : World) (c : Camera) :
  nth_error (threads w) i = Some AtLoopHead ->
  is_running (self w) = true ->
  camera (self w) = Some c ->
  read inp = None ->
  let w' := iterate names i inp w in
  nth_error (threads w') i = Some Exited
  /\ S (active_loops w') = active_loops w
  /\ self w' = self w
  /\ is_running (self w') = true
  /\ camera (self w') = Some c
  /\ released w' = released w
  /\ emitted w' = emitted w
  /\ printed w' = printed w.
Proof.
  intros Ht Hr Hc Hrd. cbv zeta. unfold iterate. rewrite Ht, Hr, Hc, Hrd.
  unfold exit_thread. rewrite active_loops_live_count.
  cbn [threads with_threads self released emitted printed].
  repeat split; try assumption.
  - apply (nth_error_set_nth_same _ _ _ _ Ht).
  - apply live_count_exit. exact Ht.
Qed.

Lemma read_failure_ends_the_loop_and_nothing_else_witness :
  let w := fst (start_detection (Opened 0%nat) (boot (of_int 1700000000))) in
  let inp := mkInputs None (Ok []) (of_int 1700000001) (of_int 1700000001) true in
  let w' := iterate [] 0 inp w in
  active_loops w' = O /\ is_running (self w') = true
  /\ camera (self w') = Some 0%nat /\ released w' = [].
Proof.
  pose proof (read_failure_ends_the_loop_and_nothing_else
                [] 0
                (mkInputs None (Ok []) (of_int 1700000001) (of_int 1700000001) true)
                (fst (start_detection (Opened 0%nat) (boot (of_int 1700000000))))
                0%nat eq_refl eq_refl eq_refl eq_refl)
    as (_ & H2 & _ & H4 & H5 & H6 & _).
  cbv zeta in *. split; [|repeat split; assumption].
  apply eq_add_S. exact H2.
Defined.

Lemma threads_iterate (names : list string) (i : nat) (inp : Inputs) (w : World) :
  threads (iterate names i inp w) = threads w
  \/ (nth_error (threads w) i = Some AtLoopHead
      /\ threads (iterate names i inp w) = set_nth i Exited (threads w)).
Proof.
  unfold iterate.
  destruct (nth_error (threads w) i) as [[|]|] eqn:Ht; try (left; reflexivity).
  destruct (is_running (self w)); [|right; split; reflexivity].
  destruct (camera (self w)); [|right; split; reflexivity].
  destruct (read inp) as [img|]; [|right; split; reflexivity].
  left. destruct (model inp) as [results|e] eqn:Hm.
  - rewrite (loop_body_ok names inp img w results Hm). reflexivity.
  - rewrite (loop_body_raise names inp img w e Hm). reflexivity.
Qed.

Lemma threads_stop_detection (w : World) : threads (stop_detection w) = threads w.
Proof. unfold stop_detection. cbn. destruct (camera (self w)); reflexivity. Qed.

Lemma threads_start_detection (o : OpenOutcome) (w : World) :
  threads (fst (start_detection o w))
  = threads w ++ (if spawns_loop (Start o) then [AtLoopHead] else []).
Proof. destruct o; cbn; rewrite ?app_nil_r; reflexivity. Qed.

Lemma threads_exec (names : list string) (op : Op) (w : World) :
  (exists i inp, op = Iterate i inp
                 /\ nth_error (threads w) i = Some AtLoopHead
                 /\ threads (exec names op w) = set_nth i Exited (threads w))
  \/ threads (exec names op w)
     = threads w ++ (if spawns_loop op then [AtLoopHead] else []).
Proof.
  destruct op as [hs now|now|o| |o|i inp]; cbn [exec].
  - right. cbn. rewrite app_nil_r. reflexivity.
  - right. cbn. rewrite app_nil_r. reflexivity.
  - right. apply threads_start_detection.
  - right. cbn [spawns_loop]. rewrite app_nil_r. apply threads_stop_detection.
  - right. unfold restart_detection.
    rewrite threads_start_detection, threads_stop_detection. reflexivity.
  - destruct (threads_iterate names i inp w) as [H|[Ht H]].
    + right. cbn [spawns_loop]. rewrite app_nil_r. exact H.
    + left. exists i, inp. repeat split; assumption.
Qed.

(** X11: loops are started by a successful [start_detection] or
    [restart_detection] and by nothing else, one at a time; every other
    operation leaves the number of running loops as it is, except a loop
    turn, which may end that one loop.  [stop_detection] in particular ends
    none by itself. *)
Theorem only_a_successful_start_adds_a_loop
        (names : list string) (op : Op) (w : World) :
  let n := active_loops w in
  let n' := active_loops (exec names op w) in
  (spawns_loop op = true -> n' = S n)
  /\ (spawns_loop op = false -> (n' <= n)%nat)
  /\ match op with
     | Iterate _ _ => (n <= S n')%nat
     | _ => spawns_loop op = false -> n' = n
     end.
Proof.
  cbv zeta. rewrite !active_loops_live_count.
  destruct (threads_exec names op w) as [[i [inp [-> [Ht H]]]]|H]; rewrite H.
  - pose proof (live_count_exit (threads w) i Ht) as Hl.
    cbn [spawns_loop]. repeat split; try discriminate; lia.
  - rewrite live_count_app.
    destruct (spawns_loop op); cbn; repeat split; try discriminate; try lia.
    all: destruct op; intros; try discriminate; lia.
Qed.

Lemma only_a_successful_start_adds_a_loop_witness :
  active_loops (exec [] (Restart (Opened 3%nat)) sample_world) = 1%nat
  /\ (active_loops (exec [] Stop sample_world) <= active_loops sample_world)%nat.
Proof.
  split.
  - exact (proj1 (only_a_successful_start_adds_a_loop
                    [] (Restart (Opened 3%nat)) sample_world) eq_refl).
  - exact (proj1 (proj2 (only_a_successful_start_adds_a_loop [] Stop sample_world))
                 eq_refl).
Defined.

Lemma exited_exec (names : list string) (op : Op) (w : World) (j : nat) :
  nth_error (threads w) j = Some Exited ->
  nth_error (threads (exec names op w)) j = Some Exited.
Proof.
  intros Hj.
  destruct (threads_exec names op w) as [[i [inp [_ [Ht H]]]]|H]; rewrite H.
  - rewrite nth_error_set_nth_other; [exact Hj|].
    intros ->. rewrite Ht in Hj. discriminate.
  - rewrite nth_error_app1; [exact Hj|].
    apply nth_error_Some. rewrite Hj. discriminate.
Qed.

(** X12: a loop that has left never comes back.  Once a thread has exited,
    no operation of the system, a later start or restart included, puts it
    back in the loop: only new threads run. *)
Theorem an_exited_loop_never_resumes
        (names : list string) (ops : list Op) (w : World) (j : nat) :
  nth_error (threads w) j = Some Exited ->
  nth_error (threads (run names ops w)) j = Some Exited.
Proof.
  apply (run_invariant names (fun w => nth_error (threads w) j = Some Exited)).
  intros op w0. apply exited_exec.
Qed.

Lemma an_exited_loop_never_resumes_witness :
  let w := one_turn_each [] (fun _ => mkInputs None (Ok []) (of_int 0) (of_int 0) true)
             (fst (start_detection (Opened 0%nat) (boot (of_int 1700000000)))) in
  let ops := [Stop; Start (Opened 1%nat);
              Iterate 0 (mkInputs (Some 1%nat) (Ok []) (of_int 9) (of_int 9) true)] in
  nth_error (threads (run [] ops w)) 0 = Some Exited.
Proof.
  exact (an_exited_loop_never_resumes
           [] [Stop; Start (Opened 1%nat);
               Iterate 0 (mkInputs (Some 1%nat) (Ok []) (of_int 9) (of_int 9) true)]
           (one_turn_each [] (fun _ => mkInputs None (Ok []) (of_int 0) (of_int 0) true)
              (fst (start_detection (Opened 0%nat) (boot (of_int 1700000000)))))
           0%nat eq_refl).
Defined.

(** ** Pushing *)

Lemma counters_tracked (names : list string) (results : list Results) (img : nat)
      (inp : Inputs) (s : YOLODetectionSystem) :
  counters (tracked names results img inp s)
  = if commits s (clock_stats inp)
    then commit_event (flag_of names results img) (counters s)
    else counters s.
Proof.
  unfold tracked. cbv zeta.
  rewrite counters_calculate_fps, counters_update_statistics. reflexivity.
Qed.

(** X13: when the frame cannot be encoded, that iteration pushes nothing
    and prints nothing, but it has done its bookkeeping: the detections are
    stored, the statistics and the FPS count are updated as in any other
    iteration, and the annotated frame, banner last, is the current frame. *)
Theorem encoding_failure_skips_the_push_only
        (names : list string) (i : nat) (inp : Inputs) (w : World)
        (c : Camera) (img : nat) (results : list Results) :
  nth_error (threads w) i = Some AtLoopHead ->
  is_running (self w) = true ->
  camera (self w) = Some c ->
  read inp = Some img ->
  model inp = Ok results ->
  imencode_ok inp = false ->
  let w' := iterate names i inp w in
  emitted w' = emitted w
  /\ printed w' = printed w
  /\ threads w' = threads w
  /\ counters (self w')
     = (if commits (self w) (clock_stats inp)
        then commit_event (flag_of names results img) (counters (self w))
        else counters (self w))
  /\ has_sg (detection_results (self w')) = flag_of names results img
  /\ detections (detection_results (self w')) = found names results img
  /\ exists labels,
      current_frame (self w')
      = Some (mkFrame img (labels ++ [Banner (fps (detection_results (self w')))
                                             (status_text_of (flag_of names results img))
                                             (if flag_of names results img
                                              then RED else GREEN)])).
Proof.
  intros Ht Hr Hc Hrd Hm He. cbv zeta.
  unfold iterate. rewrite Ht, Hr, Hc, Hrd.
  rewrite (loop_body_ok names inp img w results Hm). cbv zeta. rewrite He.
  cbn [emitted printed threads self]. rewrite !app_nil_r.
  rewrite counters_with_current_frame, counters_tracked.
  destruct (detected_tracked names results img inp (self w)) as [Hh Hd].
  repeat split; try assumption.
  exists (map (label_of names) (first_boxes results)).
  cbn [current_frame with_current_frame detection_results].
  unfold annotated, boxed. cbv zeta.
  assert (Hp : process_detections names results (raw_frame img)
               = fold_left (process_box names) (first_boxes results)
                           (false, [], raw_frame img)).
  { unfold process_detections, first_boxes.
    destruct results as [|r0 rest]; [reflexivity|].
    destruct (boxes r0); reflexivity. }
  rewrite Hp, fold_process_box. reflexivity.
Qed.

Lemma encoding_failure_skips_the_push_only_witness :
  let w := fst (start_detection (Opened 0%nat) sample_world) in
  let inp := mkInputs (Some 5%nat) (Ok [mkResults (Some [sg_box])])
                      (of_int 1700000200) (of_int 1700000200) false in
  let w' := iterate ["sg"%string] 0 inp w in
  emitted w' = [] /\ counters (self w') = mkStats 5 3 2
  /\ has_sg (detection_results (self w')) = true.
Proof.
  pose proof (encoding_failure_skips_the_push_only
                ["sg"%string] 0
                (mkInputs (Some 5%nat) (Ok [mkResults (Some [sg_box])])
                          (of_int 1700000200) (of_int 1700000200) false)
                (fst (start_detection (Opened 0%nat) sample_world))
                0%nat 5%nat [mkResults (Some [sg_box])]
                eq_refl eq_refl eq_refl eq_refl eq_refl eq_refl)
    as (H1 & _ & _ & H4 & H5 & _).
  cbv zeta in *. repeat split; assumption.
Defined.




Lemma emitted_exec (names : list string) (op : Op) (w : World) :
  emitted (exec names op w) = emitted w
  \/ exists i inp img,
      op = Iterate i inp /\ exec names op w = loop_body names inp img w.
Proof.
  destruct op as [hs now|now|o| |o|i inp]; cbn [exec]; try (left; reflexivity).
  - left. destruct o; reflexivity.
  - left. unfold stop_detection. cbn. destruct (camera (self w)); reflexivity.
  - left. unfold restart_detection, stop_detection. cbn.
    destruct o, (camera (self w)); reflexivity.
  - unfold iterate.
    destruct (nth_error (threads w) i) as [[|]|]; try (left; reflexivity).
    destruct (is_running (self w)); [|left; reflexivity].
    destruct (camera (self w)); [|left; reflexivity].
    destruct (read inp) as [img|]; [|left; reflexivity].
    right. exists i, inp, img. split; reflexivity.
Qed.

Lemma loop_body_counters_in_range (names : list string) (inp : Inputs) (img : nat)
      (w : World) :
  counters_in_range w -> counters_in_range (loop_body names inp img w).
Proof.
  unfold counters_in_range. cbv zeta. rewrite counters_loop_body.
  intros H. destruct (model inp) as [results|e]; [|exact H].
  destruct (commits (self w) (clock_stats inp)); [|exact H].
  destruct (flag_of names results img); simpl; lia.
Qed.

Lemma loop_body_events_ok (names : list string) (inp : Inputs) (img : nat) (w : World) :
  counters_in_range w ->
  Forall event_ok (emitted w) ->
  Forall event_ok (emitted (loop_body names inp img w)).
Proof.
  intros Hr Hev.
  pose proof (loop_body_counters_in_range names inp img w Hr) as Hr'.
  unfold counters_in_range in Hr'. cbv zeta in Hr'.
  destruct (model inp) as [results|e] eqn:Hm.
  - pose proof (loop_body_ok names inp img w results Hm) as Hb. cbv zeta in Hb.
    rewrite Hb in *. cbn [emitted self] in *.
    rewrite counters_with_current_frame in Hr'.
    apply Forall_app. split; [exact Hev|].
    destruct (imencode_ok inp); [|constructor].
    destruct (ng_rate _); [|constructor].
    apply Forall_cons; [|apply Forall_cons; [exact I|apply Forall_nil]].
    cbn [event_ok]. split; [|lia].
    destruct (flag_of names results img); [right|left]; reflexivity.
  - rewrite (loop_body_raise names inp img w e Hm). exact Hev.
Qed.

(** X15: every status event the system ever pushes is well formed: its
    status is "PASS" or "NG", its counts are not negative and its
    [total_count] is the sum of [pass_count] and [ng_count]. *)
Theorem every_pushed_status_event_adds_up
        (names : list string) (now : float) (ops : list Op)
        (status : string) (p n t : Z) (rate : float) :
  In (detection_result status p n t rate) (emitted (run names ops (boot now))) ->
  (status = "PASS"%string \/ status = "NG"%string)
  /\ t = p + n /\ 0 <= p /\ 0 <= n.
Proof.
  intros Hin.
  assert (H : counters_in_range (run names ops (boot now))
              /\ Forall event_ok (emitted (run names ops (boot now)))).
  { apply (run_invariant names
             (fun w => counters_in_range w /\ Forall event_ok (emitted w))).
    - intros op w [Hr Hev]. split; [apply exec_counters_in_range; exact Hr|].
      destruct (emitted_exec names op w) as [->|[i [inp [img [_ ->]]]]];
        [exact Hev|].
      apply loop_body_events_ok; assumption.
    - split; [unfold counters_in_range; cbn; lia|constructor]. }
  destruct H as [_ Hev]. rewrite Forall_forall in Hev.
  exact (Hev _ Hin).
Qed.

Lemma every_pushed_status_event_adds_up_witness :
  let w := run [] [Start (Opened 0%nat);
                   Iterate 0 (mkInputs (Some 1%nat) (Ok []) (of_int 10) (of_int 10) true);
                   Iterate 0 (mkInputs (Some 2%nat) (Ok []) (of_int 20) (of_int 20) true);
                   Iterate 0 (mkInputs (Some 3%nat) (Ok []) (of_int 30) (of_int 30) true)]
               (boot (of_int 5)) in
  In (detection_result "PASS" 3 0 3 (of_int 0)) (emitted w)
  /\ 3 = 3 + 0 /\ 0 <= 3 /\ 0 <= 0.
Proof.
  cbv zeta.
  assert (Hin : In (detection_result "PASS" 3 0 3 (of_int 0))
                   (emitted
                      (run [] [Start (Opened 0%nat);
                               Iterate 0 (mkInputs (Some 1%nat) (Ok []) (of_int 10)
                                                   (of_int 10) true);
                               Iterate 0 (mkInputs (Some 2%nat) (Ok []) (of_int 20)
                                                   (of_int 20) true);
                               Iterate 0 (mkInputs (Some 3%nat) (Ok []) (of_int 30)
                                                   (of_int 30) true)]
                           (boot (of_int 5)))))
    by (vm_compute; right; right; right; right; left; reflexivity).
  split; [exact Hin|].
  exact (proj2 (every_pushed_status_event_adds_up _ _ _ _ _ _ _ _ Hin)).
Defined.

(** ** Cameras *)

Lemma NoDup_app_disjoint {A : Type} (l1 l2 : list A) (a : A) :
  NoDup (l1 ++ l2) -> In a l1 -> ~ In a l2.
Proof.
  induction l1 as [|x l1 IH]; intros Hnd Hin; [destruct Hin|].
  cbn in Hnd. inversion Hnd as [|? ? Hx Hrest]; subst.
  destruct Hin as [-> | Hin].
  - intros H2. apply Hx. apply in_or_app. right. exact H2.
  - apply IH; assumption.
Qed.

(** What an operation does to the camera held and to the cameras released. *)
Lemma cameras_exec (names : list string) (op : Op) (w : World) :
  (released (exec names op w) = released w
   /\ (camera (self (exec names op w)) = camera (self w)
       \/ exists c, In c (opened_by op) /\ camera (self (exec names op w)) = Some c))
  \/ (exists c0,
        camera (self w) = Some c0
        /\ released (exec names op w) = released w ++ [c0]
        /\ (camera (self (exec names op w)) = None
            \/ exists c, In c (opened_by op)
                         /\ camera (self (exec names op w)) = Some c)).
Proof.
  destruct op as [hs now|now|o| |o|i inp]; cbn [exec].
  - left. split; [reflexivity|left].
    cbn [self with_self]. unfold update_statistics.
    rewrite last_or_zero_ensure.
    destruct (gt (sub now (last_or_zero (self w))) DEBOUNCE);
      destruct (self w) as [cam run0 cf dr fc fs [l|]]; reflexivity.
  - left. split; [reflexivity|left]. cbn [self with_self].
    destruct (rolls (self w) now) eqn:E;
      [rewrite calculate_fps_roll by exact E
      |rewrite calculate_fps_no_roll by exact E]; reflexivity.
  - left. destruct o as [c| |c]; cbn; split; try reflexivity;
      try (left; same_camera); right; exists c; split; auto.
  - unfold stop_detection. cbn. destruct (camera (self w)) as [c0|] eqn:Hc.
    + right. exists c0. cbn. repeat split. left. same_camera.
    + left. cbn. split; [reflexivity|left; same_camera].
  - unfold restart_detection, stop_detection. cbn.
    destruct (camera (self w)) as [c0|] eqn:Hc.
    + right. exists c0. destruct o as [c| |c]; cbn; repeat split;
        try (left; same_camera); right; exists c; split; auto.
    + left. destruct o as [c| |c]; cbn; split; try reflexivity;
        try (left; same_camera); right; exists c; split; auto.
  - left. unfold iterate.
    destruct (nth_error (threads w) i) as [[|]|];
      try (split; [reflexivity|left; cbn; same_camera]).
    destruct (is_running (self w)); [|split; [reflexivity|left; cbn; same_camera]].
    destruct (camera (self w)) eqn:Hc;
      [|split; [reflexivity|left; cbn; same_camera]].
    destruct (read inp) as [img|]; [|split; [reflexivity|left; cbn; same_camera]].
    destruct (model inp) as [results|e] eqn:Hm.
    + rewrite (loop_body_ok names inp img w results Hm). cbn [released self].
      split; [reflexivity|left].
      cbn [camera with_current_frame]. unfold tracked. cbv zeta.
      destruct (rolls (update_statistics
                         (with_detection_results
                            (set_detected (flag_of names results img)
                                          (found names results img)
                                          (detection_results (self w))) (self w))
                         (flag_of names results img) (clock_stats inp))
                      (clock_fps inp)) eqn:E;
        [rewrite calculate_fps_roll by exact E
        |rewrite calculate_fps_no_roll by exact E];
        cbn [camera with_fps_counter];
        unfold update_statistics; rewrite last_or_zero_ensure;
        match goal with |- context [if ?b then _ else _] => destruct b end;
        destruct (self w) as [cam run0 cf dr fc fs [l|]]; cbn in *; congruence.
    + rewrite (loop_body_raise names inp img w e Hm). cbn.
      split; [reflexivity|left; same_camera].
Qed.

Lemma cameras_ok_exec (names : list string) (op : Op) (fresh : list Camera) (w : World) :
  NoDup (opened_by op ++ fresh) ->
  cameras_ok (opened_by op ++ fresh) w ->
  cameras_ok fresh (exec names op w).
Proof.
  intros Hnd (Hrel & Hheld & Hfresh).
  assert (Hnew : forall c, In c (opened_by op) ->
                           ~ In c (released w) /\ camera (self w) <> Some c
                           /\ ~ In c fresh).
  { intros c Hc. destruct (Hfresh c (in_or_app _ _ _ (or_introl Hc))) as [H1 H2].
    repeat split; try assumption. apply (NoDup_app_disjoint _ _ _ Hnd Hc). }
  assert (Hold : forall c, In c fresh ->
                           ~ In c (released w) /\ camera (self w) <> Some c).
  { intros c Hc. apply Hfresh. apply in_or_app. right. exact Hc. }
  destruct (cameras_exec names op w)
    as [[Hr Hcam]|[c0 [Hc0 [Hr Hcam]]]]; unfold cameras_ok; rewrite Hr.
  - split; [exact Hrel|split].
    + intros c Hc. destruct Hcam as [Hsame|[c1 [Hin1 Hc1]]].
      * apply Hheld. rewrite <- Hsame. exact Hc.
      * rewrite Hc1 in Hc. injection Hc as <-. apply (Hnew c1 Hin1).
    + intros c Hc. split; [apply (Hold c Hc)|].
      destruct Hcam as [Hsame|[c1 [Hin1 Hc1]]].
      * rewrite Hsame. apply (Hold c Hc).
      * rewrite Hc1. intros Heq. injection Heq as ->.
        apply (Hnew c Hin1). exact Hc.
  - assert (Hc0rel : ~ In c0 (released w)) by (apply Hheld; exact Hc0).
    split; [|split].
    + apply NoDup_app; [exact Hrel|repeat constructor; intros []|].
      intros a Ha [<-|[]]. contradiction.
    + intros c Hc. destruct Hcam as [Hnone|[c1 [Hin1 Hc1]]];
        [rewrite Hnone in Hc; discriminate|].
      rewrite Hc1 in Hc. injection Hc as <-.
      destruct (Hnew c1 Hin1) as (H1 & H2 & _).
      intros Hin. apply in_app_or in Hin. destruct Hin as [Hin|[<-|[]]].
      * contradiction.
      * apply H2. exact Hc0.
    + intros c Hc. destruct (Hold c Hc) as [H1 H2]. split.
      * intros Hin. apply in_app_or in Hin. destruct Hin as [Hin|[<-|[]]].
        -- contradiction.
        -- apply H2. exact Hc0.
      * destruct Hcam as [Hnone|[c1 [Hin1 Hc1]]].
        -- rewrite Hnone. discriminate.
        -- rewrite Hc1. intros Heq. injection Heq as ->.
           apply (Hnew c Hin1). exact Hc.
Qed.

(** X16: no camera is released twice.  Every [cv2.VideoCapture] call
    makes a new object, so the cameras the operations of a run open are
    pairwise distinct; then the cameras released in the run are pairwise
    distinct too, and the camera held at the end is not among them. *)
Theorem no_camera_is_released_twice
        (names : list string) (now : float) (ops : list Op) :
  NoDup (flat_map opened_by ops) ->
  let w := run names ops (boot now) in
  NoDup (released w)
  /\ forall c, camera (self w) = Some c -> ~ In c (released w).
Proof.
  intros Hnd. cbv zeta.
  assert (H : forall ops w,
             NoDup (flat_map opened_by ops) ->
             cameras_ok (flat_map opened_by ops) w ->
             cameras_ok [] (run names ops w)).
  { clear. intros ops. induction ops as [|op ops IH]; intros w Hnd Hok.
    - exact Hok.
    - rewrite run_cons. cbn [flat_map] in *.
      apply IH; [apply (NoDup_app_remove_l _ _ Hnd)|].
      apply cameras_ok_exec; assumption. }
  destruct (H ops (boot now) Hnd) as (H1 & H2 & _).
  - unfold cameras_ok. cbn. repeat split; try constructor; auto; discriminate.
  - split; assumption.
Qed.

Lemma no_camera_is_released_twice_witness :
  let ops := [Start (Opened 0%nat); Stop; Stop; Restart (Opened 1%nat);
              Restart (SetRaises 2%nat); Start (Opened 3%nat); Stop] in
  NoDup (released (run [] ops (boot (of_int 0)))).
Proof.
  assert (Hnd : NoDup (flat_map opened_by
                         [Start (Opened 0%nat); Stop; Stop; Restart (Opened 1%nat);
                          Restart (SetRaises 2%nat); Start (Opened 3%nat); Stop])).
  { cbn. repeat constructor; cbn; intuition discriminate. }
  exact (proj1 (no_camera_is_released_twice [] (of_int 0) _ Hnd)).
Defined.

Lemma not_released_exec (names : list string) (op : Op) (w : World) (c : Camera) :
  ~ In c (opened_by op) ->
  ~ In c (released w) /\ camera (self w) <> Some c ->
  ~ In c (released (exec names op w))
  /\ camera (self (exec names op w)) <> Some c.
Proof.
  intros Hop [Hrel Hheld].
  destruct (cameras_exec names op w) as [[Hr Hcam]|[c0 [Hc0 [Hr Hcam]]]]; rewrite Hr.
  - split; [exact Hrel|].
    destruct Hcam as [->|[c1 [Hin1 ->]]]; [exact Hheld|].
    intros Heq. injection Heq as ->. contradiction.
  - split.
    + intros Hin. apply in_app_or in Hin. destruct Hin as [Hin|[<-|[]]].
      * contradiction.
      * apply Hheld. exact Hc0.
    + destruct Hcam as [->|[c1 [Hin1 ->]]]; [discriminate|].
      intros Heq. injection Heq as ->. contradiction.
Qed.

(** X17: a camera replaced by a start is lost.  When [start_detection]
    opens a camera while another one is held, the one held before is not
    released then and is not released by anything the system does later:
    no stop or restart can reach it any more. *)
Theorem a_camera_replaced_by_start_is_never_released
        (names : list string) (w : World) (c c' : Camera) (ops : list Op) :
  camera (self w) = Some c ->
  c <> c' ->
  ~ In c (released w) ->
  ~ In c (flat_map opened_by ops) ->
  ~ In c (released (run names ops (fst (start_detection (Opened c') w)))).
Proof.
  intros Hc Hne Hrel Hops.
  assert (H : forall ops w0,
             ~ In c (flat_map opened_by ops) ->
             ~ In c (released w0) /\ camera (self w0) <> Some c ->
             ~ In c (released (run names ops w0))).
  { clear. intros ops. induction ops as [|op ops IH]; intros w0 Hops H0.
    - apply H0.
    - rewrite run_cons. cbn [flat_map] in Hops. apply IH.
      + intros Hin. apply Hops. apply in_or_app. right. exact Hin.
      + apply not_released_exec; [|exact H0].
        intros Hin. apply Hops. apply in_or_app. left. exact Hin. }
  apply H; [exact Hops|]. cbn. split; [exact Hrel|].
  intros Heq. injection Heq as ->. apply Hne. reflexivity.
Qed.

Lemma a_camera_replaced_by_start_is_never_released_witness :
  let w := fst (start_detection (Opened 0%nat) (boot (of_int 0))) in
  let ops := [Stop; Restart (Opened 2%nat); Stop; Start (Opened 3%nat); Stop] in
  ~ In 0%nat (released (run [] ops (fst (start_detection (Opened 1%nat) w)))).
Proof.
  apply (a_camera_replaced_by_start_is_never_released
           [] (fst (start_detection (Opened 0%nat) (boot (of_int 0)))) 0%nat 1%nat
           [Stop; Restart (Opened 2%nat); Stop; Start (Opened 3%nat); Stop]).
  - reflexivity.
  - discriminate.
  - intros [].
  - cbn. intuition discriminate.
Defined.

(** X18: [restart_detection] is a stop followed by a start, and unlike a
    second start it hands back what it held: the camera held before is
    released, exactly once, before the new one is installed.  When the
    camera cannot be initialised the system is left stopped. *)
Theorem restart_releases_the_camera_it_replaces (o : OpenOutcome) (w : World) :
  let w' := fst (restart_detection o w) in
  released w'
  = released w ++ match camera (self w) with Some c => [c] | None => [] end
  /\ snd (restart_detection o w) = is_running (self w')
  /\ match o with
     | Opened c =>
         is_running (self w') = true /\ camera (self w') = Some c
         /\ threads w' = threads w ++ [AtLoopHead]
     | ConstructorRaises =>
         is_running (self w') = false /\ camera (self w') = None
         /\ threads w' = threads w
     | SetRaises c =>
         is_running (self w') = false /\ camera (self w') = Some c
         /\ threads w' = threads w
     end.
Proof.
  unfold restart_detection, stop_detection. cbn.
  destruct (camera (self w)) eqn:Hc, o; cbn; rewrite ?app_nil_r;
    repeat split; assumption.
Qed.

(** ** Command handlers *)

(** X19: the status a handler sends back is the value of [is_running]
    after the command, with one exception: a [start_detection] command whose
    camera initialisation fails while the system is running answers
    "not running" although the flag is still set and the loops go on. *)
Theorem reply_tells_the_flag_unless_a_start_fails_while_running
        (c : Command) (w : World) :
  let w' := fst (handle c w) in
  let reply := snd (handle c w) in
  (failed_start c = true /\ is_running (self w) = true ->
   reported_running reply = false
   /\ is_running (self w') = true
   /\ threads w' = threads w)
  /\ (failed_start c = false \/ is_running (self w) = false ->
      reported_running reply = is_running (self w')).
Proof.
  cbv zeta. split.
  - intros [Hf Hr].
    destruct c as [[c0| |c0]| |o]; try discriminate Hf; cbn; auto.
  - intros H.
    destruct c as [[c0| |c0]| |o]; cbn.
    + reflexivity.
    + destruct H as [H|H]; [discriminate H|symmetry; exact H].
    + destruct H as [H|H]; [discriminate H|symmetry; exact H].
    + unfold stop_detection. cbn. destruct (camera (self w)); reflexivity.
    + unfold handle_restart_system, restart_detection, stop_detection. cbn.
      destruct (camera (self w)), o; reflexivity.
Qed.

Lemma reply_tells_the_flag_unless_a_start_fails_while_running_witness :
  let w := fst (start_detection (Opened 0%nat) (boot (of_int 0))) in
  reported_running (snd (handle (start_command ConstructorRaises) w)) = false
  /\ is_running (self (fst (handle (start_command ConstructorRaises) w))) = true
  /\ reported_running (snd (handle (restart_command ConstructorRaises) w))
     = is_running (self (fst (handle (restart_command ConstructorRaises) w))).
Proof.
  cbv zeta.
  pose proof (proj1 (reply_tells_the_flag_unless_a_start_fails_while_running
                       (start_command ConstructorRaises)
                       (fst (start_detection (Opened 0%nat) (boot (of_int 0)))))
                    (conj eq_refl eq_refl)) as (H1 & H2 & _).
  pose proof (proj2 (reply_tells_the_flag_unless_a_start_fails_while_running
                       (restart_command ConstructorRaises)
                       (fst (start_detection (Opened 0%nat) (boot (of_int 0)))))
                    (or_introl eq_refl)) as H3.
  repeat split; assumption.
Defined.

(** ** The dashboard page *)

Lemma receive_buttons (m : Message) (d : Dashboard) :
  start_disabled d = negb (stop_disabled d) /\ restart_disabled d = stop_disabled d ->
  start_disabled (receive m d) = negb (stop_disabled (receive m d))
  /\ restart_disabled (receive m d) = stop_disabled (receive m d).
Proof.
  intros H.
  destruct m as [[status p n t rate|f]|[b msg]]; cbn; try exact H.
  destruct b; cbn; split; reflexivity.
Qed.

(** X20: on the page, Start is enabled exactly when Stop is disabled, and
    Restart is enabled exactly when Stop is, from the page as served and
    after any messages, in any order, from the server. *)
Theorem start_and_stop_buttons_are_never_both_enabled (ms : list Message) :
  let d := receive_all ms page0 in
  start_disabled d = negb (stop_disabled d)
  /\ restart_disabled d = stop_disabled d.
Proof.
  cbv zeta. unfold receive_all.
  assert (H : forall ms d,
             start_disabled d = negb (stop_disabled d)
             /\ restart_disabled d = stop_disabled d ->
             start_disabled (fold_left (fun d m => receive m d) ms d)
             = negb (stop_disabled (fold_left (fun d m => receive m d) ms d))
             /\ restart_disabled (fold_left (fun d m => receive m d) ms d)
                = stop_disabled (fold_left (fun d m => receive m d) ms d)).
  { clear. intros ms. induction ms as [|m ms IH]; intros d Hd; [exact Hd|].
    cbn [fold_left]. apply IH, receive_buttons, Hd. }
  apply H. split; reflexivity.
Qed.
